(** * TelloPy wire protocol: [tellopy/_internal/protocol.py]

    A shallow embedding of the packet layer of TelloPy (class [Packet]), of
    the flight-status decoder (class [FlightData]) and of the telemetry
    demultiplexer (class [LogData] with its two sub-decoders), followed by
    the properties of the specification that concern them.

    Python integers are [Z]; a [bytearray], a [bytes] object and a Python 2
    byte string are lists of [Z] whose elements are byte values.  Exceptions
    are values of [exn]; code that mutates an object threads the object
    through a small state-and-exception monad, so that the mutations made
    before an exception are kept, as they are in Python. *)

From stdpp Require Import base numbers list relations.
From Stdlib Require Import ZArith Lia.

Open Scope Z_scope.

(** ** The Python runtime, as far as the module uses it *)

Module Py.

(** The exceptions the module can raise.  [CorruptedData] stands for the
    two explicit [raise Exception('LogData: corrupted data at pos=%d,
    data=%s' % (pos, byte_to_hexstring(data[pos:])))] of [LogData.update]
    (the specification calls it CorruptStream); it carries [pos] and the
    bytes [data[pos:]].  [StructError] is [struct.error]. *)
Inductive exn : Type :=
  | IndexError
  | ValueError
  | StructError
  | CorruptedData (pos : Z) (rest : list Z).

Definition is_byte (v : Z) : bool := (0 <=? v) && (v <? 256).

(** Index normalisation of a sequence of length [n]: a negative index counts
    from the end; [None] when the index is out of range. *)
Definition normalize_index (n : nat) (i : Z) : option nat :=
  let j := if i <? 0 then i + Z.of_nat n else i in
  if (0 <=? j) && (j <? Z.of_nat n) then Some (Z.to_nat j) else None.

(** [l[i]] *)
Definition getitem (l : list Z) (i : Z) : exn + Z :=
  match normalize_index (length l) i with
  | Some j => match l !! j with Some v => inr v | None => inl IndexError end
  | None => inl IndexError
  end.

(** [b[i] = v] on a bytearray: the index must be in range and the value a
    byte ("byte must be in range(0, 256)").  The index is checked first, as
    in CPython 2.7; the two checks are never both violated in this module
    when the checksum provider returns bytes. *)
Definition setitem (l : list Z) (i v : Z) : exn + list Z :=
  match normalize_index (length l) i with
  | Some j => if is_byte v then inr (<[j := v]> l) else inl ValueError
  | None => inl IndexError
  end.

(** A slice bound: negative bounds count from the end, and every bound is
    clamped to [0, n]. *)
Definition clamp_bound (n : nat) (i : Z) : nat :=
  let j := if i <? 0 then i + Z.of_nat n else i in
  Z.to_nat (Z.min (Z.max j 0) (Z.of_nat n)).

(** [l[start:stop]]; empty when the clamped bounds cross.  A slice never
    raises. *)
Definition slice (l : list Z) (start stop : Z) : list Z :=
  let a := clamp_bound (length l) start in
  let b := clamp_bound (length l) stop in
  take (b - a)%nat (drop a l).

(** [l[start:]] *)
Definition slice_from (l : list Z) (start : Z) : list Z :=
  drop (clamp_bound (length l) start) l.

(** [struct.unpack_from(fmt, buffer, offset)] first resolves the offset: a
    negative offset counts from the end, and [size] bytes must be available
    from it, otherwise [struct.error] is raised. *)
Definition unpack_offset (n : nat) (size offset : Z) : option nat :=
  let o := if offset <? 0 then offset + Z.of_nat n else offset in
  if (0 <=? o) && (size <=? Z.of_nat n - o) then Some (Z.to_nat o) else None.

Definition byte_at (l : list Z) (j : nat) : Z := default 0 (l !! j).

(** Format ['B']: one unsigned byte. *)
Definition unpack_B (data : list Z) (offset : Z) : exn + Z :=
  match unpack_offset (length data) 1 offset with
  | Some o => inr (byte_at data o)
  | None => inl StructError
  end.

(** Format ['<H']: unsigned little-endian 16-bit. *)
Definition unpack_H (data : list Z) (offset : Z) : exn + Z :=
  match unpack_offset (length data) 2 offset with
  | Some o => inr (byte_at data o + 256 * byte_at data (S o))
  | None => inl StructError
  end.

Definition to_signed16 (u : Z) : Z := if u <? 32768 then u else u - 65536.

(** Format ['<h']: signed little-endian 16-bit. *)
Definition unpack_h (data : list Z) (offset : Z) : exn + Z :=
  match unpack_offset (length data) 2 offset with
  | Some o => inr (to_signed16 (byte_at data o + 256 * byte_at data (S o)))
  | None => inl StructError
  end.

End Py.

Import Py.

(** ** [tellopy/_internal/utils.py] *)

Module Utils.

(** Modelled from the spec: [utils.le16] is not part of the sources at hand;
    the specification has every 16-bit field written "little-endian", low
    byte first, and [Packet.fixup] assigns the two results to consecutive
    bytes of a bytearray. *)
Definition le16 (val : Z) : Z * Z :=
  (Z.land val 255, Z.land (Z.shiftr val 8) 255).

(** Modelled from the spec: [utils.int16] is not part of the sources at
    hand; the specification reads the fields that [FlightData] decodes with
    it as "little-endian signed 16-bit values".  For [Packet.get_time] the
    specification speaks of "little-endian 16-bit values" only, so the
    properties of [get_time] below that depend on a value [int16] returns
    are stated where its second argument is 0. *)
Definition int16 (val0 val1 : Z) : Z :=
  to_signed16 (Z.lor (Z.land val0 255) (Z.shiftl (Z.land val1 255) 8)).

End Utils.

Import Utils.

(** ** Module constants *)

Definition START_OF_PACKET : Z := 204.   (* 0xcc *)
Definition TIME_CMD : Z := 70.
Definition STICK_CMD : Z := 80.
Definition TAKEOFF_CMD : Z := 84.
Definition LAND_CMD : Z := 85.

(** ** A state-and-exception monad

    A method that mutates an object of type [S] and may raise: it returns
    the value or the exception, together with the object as the mutations
    made so far left it. *)

Definition M (S A : Type) : Type := S -> (exn + A) * S.

Definition ret {S A} (a : A) : M S A := fun s => (inr a, s).

Definition raise {S A} (e : exn) : M S A := fun s => (inl e, s).

Definition bind {S A B} (m : M S A) (k : A -> M S B) : M S B :=
  fun s => match m s with
           | (inl e, s') => (inl e, s')
           | (inr a, s') => k a s'
           end.

(** An expression that may raise but touches no object. *)
Definition lift {S A} (r : exn + A) : M S A := fun s => (r, s).

Declare Scope py_scope.
Delimit Scope py_scope with py.
Notation "'let*' x ':=' m 'in' k" := (bind m (fun x => k))
  (at level 10, x name, m at level 99, k at level 200) : py_scope.
Notation "m ;; k" := (bind m (fun _ => k))
  (at level 100, k at level 200, right associativity) : py_scope.

(** ** class Packet *)

Module Packet.

(** The state of the methods of a [Packet] is [self.buf]. *)
Abbreviation PM := (M (list Z)).

Local Open Scope py_scope.

(** [self.get_buffer()] *)
Definition get_buffer : PM (list Z) := fun b => (inr b, b).

Definition buf_len : PM Z := fun b => (inr (Z.of_nat (length b)), b).

Definition buf_get (i : Z) : PM Z :=
  fun b => match getitem b i with
           | inl e => (inl e, b)
           | inr v => (inr v, b)
           end.

Definition buf_set (i v : Z) : PM unit :=
  fun b => match setitem b i v with
           | inl e => (inl e, b)
           | inr b' => (inr tt, b')
           end.

(** [buf[start:stop]], a copy. *)
Definition buf_slice (start stop : Z) : PM (list Z) :=
  fun b => (inr (slice b start stop), b).

(** [bytearray.append(v)]: [v] must be a byte. *)
Definition buf_append (v : Z) : PM unit :=
  fun b => if is_byte v then (inr tt, b ++ [v]) else (inl ValueError, b).

(** The argument [cmd] of the constructor: a string (its code points), a
    bytes-like object, or an integer command id. *)
Inductive cmd_arg : Type :=
  | CmdStr (codes : list Z)
  | CmdBytes (raw : list Z)
  | CmdInt (cmd : Z).

Fixpoint append_all (vs : list Z) : PM unit :=
  match vs with
  | [] => ret tt
  | v :: vs' => buf_append v ;; append_all vs'
  end.

(** [bytearray([...])] of a list of integers: every one must be a byte. *)
Definition bytearray_of (vs : list Z) : exn + list Z :=
  if forallb is_byte vs then inr vs else inl ValueError.

(** [Packet.__init__(self, cmd, pkt_type=0x68)]: the buffer of the new
    packet, or the exception raised. *)
Definition init (cmd : cmd_arg) (pkt_type : Z) : exn + list Z :=
  match cmd with
  | CmdStr codes =>
      match append_all codes [] with
      | (inl e, _) => inl e
      | (inr _, b) => inr b
      end
  | CmdBytes raw => inr raw
  | CmdInt c =>
      bytearray_of
        [START_OF_PACKET; 0; 0; 0; pkt_type;
         Z.land c 255; Z.land (Z.shiftr c 8) 255; 0; 0]
  end.

(** [add_byte]: [self.buf.append(val & 0xff)] *)
Definition add_byte (val : Z) : PM unit := buf_append (Z.land val 255).

(** [add_int16] *)
Definition add_int16 (val : Z) : PM unit :=
  add_byte val ;; add_byte (Z.shiftr val 8).

(** [get_data]: [self.buf[9:len(self.buf)-2]] *)
Definition get_data (b : list Z) : list Z :=
  slice b 9 (Z.of_nat (length b) - 2).

(** The attributes of the [datetime.datetime] that [add_time] reads. *)
Record time : Type := Time {
  hour : Z;
  minute : Z;
  second : Z;
  microsecond : Z
}.

(** [int(time.microsecond/1000)], for the non-negative [microsecond] of a
    time. *)
Definition millisecond (t : time) : Z := microsecond t / 1000.

(** [add_time] *)
Definition add_time (t : time) : PM unit :=
  add_int16 (hour t) ;;
  add_int16 (minute t) ;;
  add_int16 (second t) ;;
  add_int16 (Z.land (millisecond t) 255) ;;
  add_int16 (Z.land (Z.shiftr (millisecond t) 8) 255).

(** A [datetime.datetime] value. *)
Record datetime : Type := Datetime {
  dt_year : Z;
  dt_month : Z;
  dt_day : Z;
  dt_hour : Z;
  dt_minute : Z;
  dt_second : Z;
  dt_microsecond : Z
}.

(** [datetime.datetime(year, month, day, hour, minute, second, microsecond)]
    raises ValueError when a field is out of its range.  The date fields are
    always those of [datetime.datetime.now()] here, which are in range. *)
Definition datetime_new (y mo d h mi s us : Z) : exn + datetime :=
  if (0 <=? h) && (h <? 24) && (0 <=? mi) && (mi <? 60)
     && (0 <=? s) && (s <? 60) && (0 <=? us) && (us <? 1000000)
  then inr (Datetime y mo d h mi s us)
  else inl ValueError.

(** [int16(buf[i], buf[j])] *)
Definition int16_at (buf : list Z) (i j : Z) : exn + Z :=
  match getitem buf i with
  | inl e => inl e
  | inr v0 =>
      match getitem buf j with
      | inl e => inl e
      | inr v1 => inr (int16 v0 v1)
      end
  end.

(** [get_time(self, buf=None)]; [now] is [datetime.datetime.now()].  The
    value read from offsets 6 and 8 is passed as the seventh argument of
    [datetime.datetime], its microsecond. *)
Definition get_time (now : datetime) (buf : option (list Z)) : PM datetime :=
  let* buf := match buf with
              | Some b => ret b
              | None => fun s => (inr (slice_from (get_data s) 1), s)
              end in
  let* hour := lift (int16_at buf 0 1) in
  let* min := lift (int16_at buf 2 3) in
  let* sec := lift (int16_at buf 4 5) in
  let* millisec := lift (int16_at buf 6 8) in
  lift (datetime_new (dt_year now) (dt_month now) (dt_day now)
                     hour min sec millisec).

Section Checksums.

(** The checksum provider [crc] is a separate module, taken as a
    parameter. *)
Variable crc8 : list Z -> Z.
Variable crc16 : list Z -> Z.

(** [fixup(self, seq_num=0)] *)
Definition fixup (seq_num : Z) : PM unit :=
  let* b0 := buf_get 0 in
  if b0 =? START_OF_PACKET then
    let* n := buf_len in
    buf_set 1 (fst (le16 (n + 2))) ;;
    buf_set 2 (snd (le16 (n + 2))) ;;
    let* b1 := buf_get 1 in
    buf_set 1 (Z.shiftl b1 3) ;;
    let* hdr := buf_slice 0 3 in
    buf_set 3 (crc8 hdr) ;;
    buf_set 7 (fst (le16 seq_num)) ;;
    buf_set 8 (snd (le16 seq_num)) ;;
    let* whole := get_buffer in
    add_int16 (crc16 whole)
  else ret tt.

(** The buffers that [fixup] goes through on a buffer [b] that starts
    with the sync marker, when no assignment raises. *)

(** The buffer after [buf[1], buf[2] = le16(len(buf)+2)]. *)
Definition with_length (b : list Z) : list Z :=
  <[2%nat := (le16 (Z.of_nat (length b) + 2)).2]>
    (<[1%nat := (le16 (Z.of_nat (length b) + 2)).1]> b).

(** ... after [buf[1] = (buf[1] << 3)] ... *)
Definition with_shift (b : list Z) : list Z :=
  <[1%nat := Z.shiftl (le16 (Z.of_nat (length b) + 2)).1 3]> (with_length b).

(** ... after the crc8 and the sequence number are stored ... *)
Definition with_header (seq_num : Z) (b : list Z) : list Z :=
  <[8%nat := (le16 seq_num).2]>
    (<[7%nat := (le16 seq_num).1]>
       (<[3%nat := crc8 (take 3 (with_shift b))]> (with_shift b))).

(** ... and after the crc16 is appended. *)
Definition framed (seq_num : Z) (b : list Z) : list Z :=
  with_header seq_num b ++
    [Z.land (crc16 (with_header seq_num b)) 255;
     Z.land (Z.shiftr (crc16 (with_header seq_num b)) 8) 255].

End Checksums.

End Packet.

(** ** class FlightData *)

Module FlightData.

Record t : Type := Make {
  battery_low : Z;
  battery_lower : Z;
  battery_percentage : Z;
  battery_state : Z;
  camera_state : Z;
  down_visual_state : Z;
  drone_battery_left : Z;
  drone_fly_time_left : Z;
  drone_hover : Z;
  em_open : Z;
  em_sky : Z;
  em_ground : Z;
  east_speed : Z;
  electrical_machinery_state : Z;
  factory_mode : Z;
  fly_mode : Z;
  fly_speed : Z;
  fly_time : Z;
  front_in : Z;
  front_lsc : Z;
  front_out : Z;
  gravity_state : Z;
  vertical_speed : Z;
  height : Z;
  imu_calibration_state : Z;
  imu_state : Z;
  light_strength : Z;
  north_speed : Z;
  outage_recording : Z;
  power_state : Z;
  pressure_state : Z;
  smart_video_exit_mode : Z;
  temperature_height : Z;
  throw_fly_timer : Z;
  wifi_disturb : Z;
  wifi_strength : Z;
  wind_state : Z
}.

(** The object after the thirty-seven assignments of 0 that open
    [__init__]. *)
Definition zero : t :=
  Make 0 0 0 0 0 0 0 0 0 0 0 0 0 0 0 0 0 0 0 0 0 0 0 0 0 0 0 0 0 0 0 0 0 0 0 0 0.

(** [(data[i] >> k) & 0x1] *)
Definition bit (data : list Z) (i : nat) (k : Z) : Z :=
  Z.land (Z.shiftr (byte_at data i) k) 1.

(** [FlightData.__init__(self, data)], for [data] a sequence of integers
    (the bytearray that [Packet.get_data] returns).  Past the length test
    every index read is below 24, hence in range. *)
Definition init (data : list Z) : t :=
  if Z.of_nat (length data) <? 24 then zero
  else
    let d := byte_at data in
    {| height := int16 (d 0%nat) (d 1%nat);
       north_speed := int16 (d 2%nat) (d 3%nat);
       east_speed := int16 (d 4%nat) (d 5%nat);
       vertical_speed := int16 (d 6%nat) (d 7%nat);
       fly_time := int16 (d 8%nat) (d 9%nat);
       imu_state := bit data 10 0;
       pressure_state := bit data 10 1;
       down_visual_state := bit data 10 2;
       power_state := bit data 10 3;
       battery_state := bit data 10 4;
       gravity_state := bit data 10 5;
       wind_state := bit data 10 7;
       imu_calibration_state := d 11%nat;
       battery_percentage := d 12%nat;
       drone_fly_time_left := int16 (d 13%nat) (d 14%nat);
       drone_battery_left := int16 (d 15%nat) (d 16%nat);
       em_sky := bit data 17 0;
       em_ground := bit data 17 1;
       em_open := bit data 17 2;
       drone_hover := bit data 17 3;
       outage_recording := bit data 17 4;
       battery_low := bit data 17 5;
       battery_lower := bit data 17 6;
       factory_mode := bit data 17 7;
       fly_mode := d 18%nat;
       throw_fly_timer := d 19%nat;
       camera_state := d 20%nat;
       electrical_machinery_state := d 21%nat;
       front_in := bit data 22 0;
       front_out := bit data 22 1;
       front_lsc := bit data 22 2;
       temperature_height := bit data 23 0;
       fly_speed := 0;
       light_strength := 0;
       smart_video_exit_mode := 0;
       wifi_disturb := 0;
       wifi_strength := 0 |}.

(** The status payload of the specification's worked example. *)
Definition example_payload : list Z :=
  [10; 0; 5; 0; 0; 0; 0; 0; 100; 0; 17; 5; 50; 0; 0; 0; 0; 5; 2; 3; 7; 1; 3; 1].

End FlightData.

(** ** class LogData, with LogNewMvoFeedback and LogImuAtti

    [data] is a byte string.  [update] first turns a bytearray into a [str]
    (Python 2: the same bytes), and builds the payload with
    [ord(x) ^ ord(xorval)] or with [x ^ xorval] according to the type of
    [data]: the same bytes either way, so the model has one branch.  The
    floating-point attributes are kept symbolically ([fval]); no property
    below depends on their numeric value. *)

Module LogData.

Local Open Scope py_scope.

Definition ID_NEW_MVO_FEEDBACK : Z := 29.
Definition ID_IMU_ATTI : Z := 2048.

(** A float attribute: the initial [0.0], a 16-bit integer divided by
    [100.0], or the float that format ['f'] unpacks from four bytes. *)
Inductive fval : Type :=
  | FZero
  | FCenti (n : Z)
  | FRaw (b0 b1 b2 b3 : Z).

(** What is handed to the logger [log]: the [debug] lines of the three
    classes and the one [info] line, 'LogData: UNHANDLED LOG DATA: id=%5d,
    length=%4d'. *)
Inductive message : Type :=
  | DebugDataLength (n : Z)
  | DebugMvoInput (payload : list Z)
  | DebugMvoDecoded
  | DebugImuInput (payload : list Z)
  | DebugImuDecoded
  | InfoUnhandled (id : Z) (len : Z).

Record LogNewMvoFeedback : Type := Mvo {
  mvo_count : Z;
  vel_x : fval; vel_y : fval; vel_z : fval;
  pos_x : fval; pos_y : fval; pos_z : fval
}.

Record LogImuAtti : Type := Imu {
  imu_count : Z;
  acc_x : fval; acc_y : fval; acc_z : fval;
  gyro_x : fval; gyro_y : fval; gyro_z : fval;
  q0 : fval; q1 : fval; q2 : fval; q3 : fval;
  vg_x : fval; vg_y : fval; vg_z : fval
}.

(** The attributes of one [LogData] object; [log] names its logger. *)
Record t : Type := Make {
  log : nat;
  count : Z;
  mvo : LogNewMvoFeedback;
  imu : LogImuAtti
}.

(** What every [LogData] object shares: the class attribute [unknowns]
    ([unknowns = []] in the class body, never rebound on an instance, only
    mutated with [append]), and the lines written so far, each with the
    logger it went to. *)
Record world : Type := World {
  unknowns : list Z;
  output : list (nat * message)
}.

Record state : Type := State {
  self : t;
  cls : world
}.

Definition emit (m : message) : M state unit :=
  fun s => (inr tt,
            State (self s)
                  (World (unknowns (cls s))
                         (output (cls s) ++ [(log (self s), m)]))).

Definition set_mvo (f : LogNewMvoFeedback -> LogNewMvoFeedback) : M state unit :=
  fun s => let o := self s in
           (inr tt, State (Make (log o) (count o) (f (mvo o)) (imu o)) (cls s)).

Definition set_imu (f : LogImuAtti -> LogImuAtti) : M state unit :=
  fun s => let o := self s in
           (inr tt, State (Make (log o) (count o) (mvo o) (f (imu o))) (cls s)).

Definition get_count : M state Z := fun s => (inr (count (self s)), s).

Definition short_at (data : list Z) (o : nat) : Z :=
  to_signed16 (byte_at data o + 256 * byte_at data (S o)).

Definition float_at (data : list Z) (o : nat) : fval :=
  FRaw (byte_at data o) (byte_at data (o + 1))
       (byte_at data (o + 2)) (byte_at data (o + 3)).

(** [struct.unpack_from('<hhh', data, offset)] *)
Definition unpack_hhh (data : list Z) (offset : Z) : exn + (Z * Z * Z) :=
  match unpack_offset (length data) 6 offset with
  | Some o => inr (short_at data o, short_at data (o + 2), short_at data (o + 4))
  | None => inl StructError
  end.

(** [struct.unpack_from('fff', data, offset)] *)
Definition unpack_fff (data : list Z) (offset : Z) : exn + (fval * fval * fval) :=
  match unpack_offset (length data) 12 offset with
  | Some o => inr (float_at data o, float_at data (o + 4), float_at data (o + 8))
  | None => inl StructError
  end.

(** [struct.unpack_from('ffff', data, offset)] *)
Definition unpack_ffff (data : list Z) (offset : Z)
  : exn + (fval * fval * fval * fval) :=
  match unpack_offset (length data) 16 offset with
  | Some o => inr (float_at data o, float_at data (o + 4),
                   float_at data (o + 8), float_at data (o + 12))
  | None => inl StructError
  end.

(** [LogNewMvoFeedback.update(self, data, count)].  The three in-place
    divisions by [100.0] that follow the first unpack cannot raise and are
    folded into the assignment. *)
Definition mvo_update (data : list Z) (cnt : Z) : M state unit :=
  emit (DebugMvoInput data) ;;
  set_mvo (fun m => Mvo cnt (vel_x m) (vel_y m) (vel_z m)
                        (pos_x m) (pos_y m) (pos_z m)) ;;
  let* v := lift (unpack_hhh data 2) in
  set_mvo (fun m => Mvo (mvo_count m)
                        (FCenti v.1.1) (FCenti v.1.2) (FCenti v.2)
                        (pos_x m) (pos_y m) (pos_z m)) ;;
  let* p := lift (unpack_fff data 8) in
  set_mvo (fun m => Mvo (mvo_count m) (vel_x m) (vel_y m) (vel_z m)
                        p.1.1 p.1.2 p.2) ;;
  emit DebugMvoDecoded.

(** [LogImuAtti.update(self, data, count)] *)
Definition imu_update (data : list Z) (cnt : Z) : M state unit :=
  emit (DebugImuInput data) ;;
  set_imu (fun i => Imu cnt (acc_x i) (acc_y i) (acc_z i)
                        (gyro_x i) (gyro_y i) (gyro_z i)
                        (q0 i) (q1 i) (q2 i) (q3 i)
                        (vg_x i) (vg_y i) (vg_z i)) ;;
  let* a := lift (unpack_fff data 20) in
  set_imu (fun i => Imu (imu_count i) a.1.1 a.1.2 a.2
                        (gyro_x i) (gyro_y i) (gyro_z i)
                        (q0 i) (q1 i) (q2 i) (q3 i)
                        (vg_x i) (vg_y i) (vg_z i)) ;;
  let* g := lift (unpack_fff data 32) in
  set_imu (fun i => Imu (imu_count i) (acc_x i) (acc_y i) (acc_z i)
                        g.1.1 g.1.2 g.2
                        (q0 i) (q1 i) (q2 i) (q3 i)
                        (vg_x i) (vg_y i) (vg_z i)) ;;
  let* q := lift (unpack_ffff data 48) in
  set_imu (fun i => Imu (imu_count i) (acc_x i) (acc_y i) (acc_z i)
                        (gyro_x i) (gyro_y i) (gyro_z i)
                        q.1.1.1 q.1.1.2 q.1.2 q.2
                        (vg_x i) (vg_y i) (vg_z i)) ;;
  let* v := lift (unpack_fff data 76) in
  set_imu (fun i => Imu (imu_count i) (acc_x i) (acc_y i) (acc_z i)
                        (gyro_x i) (gyro_y i) (gyro_z i)
                        (q0 i) (q1 i) (q2 i) (q3 i)
                        v.1.1 v.1.2 v.2) ;;
  emit DebugImuDecoded.

(** [id in self.unknowns] *)
Definition seen (id : Z) : M state bool :=
  fun s => (inr (bool_decide (id ∈ unknowns (cls s))), s).

(** [self.unknowns.append(id)]: the list of the class is mutated. *)
Definition remember (id : Z) : M state unit :=
  fun s => (inr tt,
            State (self s)
                  (World (unknowns (cls s) ++ [id]) (output (cls s)))).

(** The [if id == ... elif ... else] at the end of the loop body. *)
Definition dispatch (id length : Z) (payload : list Z) : M state unit :=
  if id =? ID_NEW_MVO_FEEDBACK then
    let* c := get_count in mvo_update payload c
  else if id =? ID_IMU_ATTI then
    let* c := get_count in imu_update payload c
  else
    let* known := seen id in
    if known then ret tt
    else emit (InfoUnhandled id (length - 12)) ;; remember id.

(** One turn of the [while] loop of [update] at position [pos]; the value
    is the next position, [pos + length]. *)
Definition record (data : list Z) (pos : Z) : M state Z :=
  let* sync := lift (unpack_B data (pos + 0)) in
  if negb (sync =? 85) then
    raise (CorruptedData pos (slice_from data pos))
  else
    let* length := lift (unpack_h data (pos + 1)) in
    let* checksum := lift (getitem data (pos + 3)) in
    let* id := lift (unpack_H data (pos + 4)) in
    let* xorval := lift (getitem data (pos + 6)) in
    let payload := map (fun x => Z.lxor x xorval)
                       (slice data (pos + 10) (pos + 10 + length - 12)) in
    dispatch id length payload ;;
    ret (pos + length).

(** How a call ends: it returns, it raises, or it is still running when
    the fuel is spent. *)
Inductive outcome (A : Type) : Type :=
  | Returned (a : A)
  | Raised (e : exn)
  | Unfinished.

Arguments Returned {A} a.
Arguments Raised {A} e.
Arguments Unfinished {A}.

(** [while (pos < len(data) - 2): ...], at most [fuel] turns of it; the
    value is [pos] at the exit.  The state returned is the one reached,
    in every case. *)
Fixpoint scan (fuel : nat) (data : list Z) (pos : Z) (s : state)
  : outcome Z * state :=
  if pos <? Z.of_nat (length data) - 2 then
    match fuel with
    | O => (Unfinished, s)
    | S fuel' =>
        match record data pos s with
        | (inl e, s') => (Raised e, s')
        | (inr pos', s') => scan fuel' data pos' s'
        end
    end
  else (Returned pos, s).

(** The two statements before the loop: the debug line and
    [self.count += 1]. *)
Definition enter (data : list Z) (s : state) : state :=
  let o := self s in
  State (Make (log o) (count o + 1) (mvo o) (imu o))
        (World (unknowns (cls s))
               (output (cls s)
                  ++ [(log o, DebugDataLength (Z.of_nat (length data)))])).

(** [LogData.update(self, data)] *)
Definition update (fuel : nat) (data : list Z) (s : state)
  : outcome unit * state :=
  match scan fuel data 0 (enter data s) with
  | (Returned pos, s') =>
      if negb (pos =? Z.of_nat (length data) - 2) then
        (Raised (CorruptedData pos (slice_from data pos)), s')
      else (Returned tt, s')
  | (Raised e, s') => (Raised e, s')
  | (Unfinished, s') => (Unfinished, s')
  end.

Definition mvo0 : LogNewMvoFeedback :=
  Mvo 0 FZero FZero FZero FZero FZero FZero.

Definition imu0 : LogImuAtti :=
  Imu 0 FZero FZero FZero FZero FZero FZero FZero FZero FZero FZero
      FZero FZero FZero.

(** A new object, as [__init__] leaves it before it looks at [data]. *)
Definition fresh (lg : nat) : t := Make lg 0 mvo0 imu0.

(** [LogData.__init__(self, log, data=None)]: [if data:] holds for a
    non-empty [data]. *)
Definition init (fuel : nat) (lg : nat) (data : option (list Z)) (w : world)
  : outcome unit * state :=
  let s := State (fresh lg) w in
  match data with
  | Some (b :: d) => update fuel (b :: d) s
  | _ => (Returned tt, s)
  end.

(** The class as the module leaves it when loaded. *)
Definition world0 : world := World [] [].

(** Consecutive calls of [update] on one object, whatever way each ends
    (a caller may catch an exception and go on). *)
Fixpoint updates (calls : list (nat * list Z)) (s : state) : state :=
  match calls with
  | [] => s
  | (fuel, data) :: rest => updates rest (update fuel data s).2
  end.

(** The number of 'UNHANDLED LOG DATA' lines written for [id]. *)
Definition is_report (id : Z) (e : nat * message) : bool :=
  match e.2 with
  | InfoUnhandled i _ => i =? id
  | _ => false
  end.

Definition reports (id : Z) (out : list (nat * message)) : nat :=
  length (List.filter (is_report id) out).

(** Calls of [update] made one after the other by any objects of the
    class, each object in whatever state it is in at its call: the objects
    have nothing in common but the class attribute and the loggers. *)
Fixpoint shared_calls (calls : list (t * nat * list Z)) (w : world) : world :=
  match calls with
  | [] => w
  | (o, fuel, data) :: rest =>
      shared_calls rest (cls (update fuel data (State o w)).2)
  end.

(** How the class attribute and the log can change between two points of
    a run: an id once in [unknowns] stays there and is not reported again,
    an id is reported at most once more, and only if it is in [unknowns]
    afterwards. *)
Definition dedupe_ext (w w' : world) : Prop :=
  (forall id, id ∈ unknowns w -> id ∈ unknowns w')
  /\ (forall id, id ∈ unknowns w ->
                 reports id (output w') = reports id (output w))
  /\ (forall id, (reports id (output w') <= reports id (output w) + 1)%nat)
  /\ (forall id, reports id (output w') <> reports id (output w) ->
                 id ∈ unknowns w').

(** A method keeps the discipline of [unknowns]. *)
Definition keeps_dedupe {A} (m : M state A) : Prop :=
  forall s, dedupe_ext (cls s) (cls (m s).2).

(** Every length field that can be read is positive. *)
Definition lengths_positive (data : list Z) : Prop :=
  forall p len, unpack_h data (p + 1) = inr len -> 0 < len.

(** The positions the loop of [update] can come to on [data]: 0, and, from
    such a position below [len(data) - 2] where the marker 0x55 stands, the
    position moved by the length field read there. *)
Inductive reached (data : list Z) : Z -> Prop :=
  | reached_start : reached data 0
  | reached_next (pos len : Z) :
      reached data pos ->
      pos < Z.of_nat (length data) - 2 ->
      unpack_B data (pos + 0) = inr 85 ->
      unpack_h data (pos + 1) = inr len ->
      reached data (pos + len).

(** The length field of every record the loop comes to is positive. *)
Definition lengths_positive_on_path (data : list Z) : Prop :=
  forall pos len,
    reached data pos ->
    pos < Z.of_nat (length data) - 2 ->
    unpack_B data (pos + 0) = inr 85 ->
    unpack_h data (pos + 1) = inr len ->
    0 < len.

(** A stream of one record whose length field is 0, with the unknown id
    0. *)
Definition zero_length_stream : list Z := [85; 0; 0; 0; 0; 0; 0].

(** A stream of two records that send the loop back and forth: the one
    at 0 has length 10, the one at 10 has length -10 (0xfff6). *)
Definition back_and_forth_stream : list Z :=
  [85; 10; 0; 0; 7; 0; 0; 0; 0; 0; 85; 246; 255; 0; 9; 0; 0; 0; 0].

(** A stream of one 12-byte record of the unknown id 7 (empty payload),
    followed by the two trailing bytes. *)
Definition unknown_id_stream : list Z :=
  [85; 12; 0; 0; 7; 0; 0; 0; 0; 0; 0; 0; 1; 2].

(** The lines written and the class attribute agree: an id in [unknowns]
    has exactly one report, any other id has none, and no id is in
    [unknowns] twice. *)
Definition reported_once (w : world) : Prop :=
  NoDup (unknowns w)
  /\ (forall id, id ∈ unknowns w -> reports id (output w) = 1%nat)
  /\ (forall id, id ∉ unknowns w -> reports id (output w) = 0%nat).

(** One change of what the objects share, as the code makes them: a line
    that is no report is written, or an id that is not in [unknowns], and
    is neither of the two handled ids, is reported and appended. *)
Inductive world_step : world -> world -> Prop :=
  | step_line (w : world) (lg : nat) (m : message) :
      (forall id, is_report id (lg, m) = false) ->
      world_step w (World (unknowns w) (output w ++ [(lg, m)]))
  | step_report (w : world) (lg : nat) (id len : Z) :
      id ∉ unknowns w ->
      id <> ID_NEW_MVO_FEEDBACK -> id <> ID_IMU_ATTI ->
      world_step w (World (unknowns w ++ [id])
                          (output w ++ [(lg, InfoUnhandled id len)])).

(** The object keeps its logger and its call counter. *)
Definition same_counter (s s' : state) : Prop :=
  log (self s') = log (self s) /\ count (self s') = count (self s).

(** The attributes that [LogNewMvoFeedback.update] assigns from a payload
    [p] of at least 20 bytes. *)
Definition mvo_decoded (p : list Z) (cnt : Z) : LogNewMvoFeedback :=
  Mvo cnt
      (FCenti (short_at p 2)) (FCenti (short_at p 4)) (FCenti (short_at p 6))
      (float_at p 8) (float_at p 12) (float_at p 16).

(** The attributes that [LogImuAtti.update] assigns from a payload [p] of
    at least 88 bytes. *)
Definition imu_decoded (p : list Z) (cnt : Z) : LogImuAtti :=
  Imu cnt
      (float_at p 20) (float_at p 24) (float_at p 28)
      (float_at p 32) (float_at p 36) (float_at p 40)
      (float_at p 48) (float_at p 52) (float_at p 56) (float_at p 60)
      (float_at p 76) (float_at p 80) (float_at p 84).

End LogData.

(** ** Building a command packet

    The call sequence of a sender: [Packet(cmd, pkt_type)] with an integer
    [cmd], then calls of [add_byte] and [add_int16], then [fixup]. *)

Module Build.

Import Packet.
Local Open Scope py_scope.

Inductive append_op : Type :=
  | AddByte (val : Z)
  | AddInt16 (val : Z).

Definition apply_op (op : append_op) : M (list Z) unit :=
  match op with
  | AddByte v => add_byte v
  | AddInt16 v => add_int16 v
  end.

Fixpoint apply_ops (ops : list append_op) : M (list Z) unit :=
  match ops with
  | [] => ret tt
  | op :: ops' => apply_op op ;; apply_ops ops'
  end.

(** The payload bytes that the calls append. *)
Definition bytes_of_op (op : append_op) : list Z :=
  match op with
  | AddByte v => [Z.land v 255]
  | AddInt16 v => [Z.land v 255; Z.land (Z.shiftr v 8) 255]
  end.

Definition payload_of (ops : list append_op) : list Z :=
  concat (map bytes_of_op ops).

(** [pkt = Packet(cmd, pkt_type); <ops>; pkt.fixup(seq_num)]: the way the
    sequence ends and the buffer it leaves. *)
Definition command_packet (crc8 crc16 : list Z -> Z)
    (cmd pkt_type : Z) (ops : list append_op) (seq_num : Z)
  : (exn + unit) * list Z :=
  match init (CmdInt cmd) pkt_type with
  | inl e => (inl e, [])
  | inr b => (apply_ops ops ;; fixup crc8 crc16 seq_num) b
  end.

(** [pkt.get_data()] after the sequence above, when it did not raise. *)
Definition command_payload (crc8 crc16 : list Z -> Z)
    (cmd pkt_type : Z) (ops : list append_op) (seq_num : Z)
  : exn + list Z :=
  match command_packet crc8 crc16 cmd pkt_type ops seq_num with
  | (inl e, _) => inl e
  | (inr _, b) => inr (get_data b)
  end.

End Build.

(** ** A checksum provider to run the code with

    Any pair of functions into a byte and into a 16-bit word can stand for
    the [crc] module when a packet is evaluated; these two add the bytes
    up. *)

Module Sample.

Definition crc8 (l : list Z) : Z := Z.land (foldr Z.add 119 l) 255.

Definition crc16 (l : list Z) : Z := Z.land (foldr Z.add 13970 l) 65535.

(** A value of [datetime.datetime.now()]. *)
Definition now : Packet.datetime := Packet.Datetime 2024 5 17 9 30 0 0.

End Sample.

(** ** Telemetry records as [LogData.update] reads them *)

Module Stream.

(** One record on the wire: the sync marker 0x55, the length of the whole
    record (ten header bytes, the payload, two closing bytes) low byte
    first, a checksum byte, the id low byte first, four tick bytes of which
    the first is the xor key, the payload xored with the key, and the two
    closing bytes. *)
Definition record_bytes (id key chk t1 t2 t3 : Z) (payload : list Z)
    (r1 r2 : Z) : list Z :=
  [85;
   (le16 (Z.of_nat (length payload) + 12)).1;
   (le16 (Z.of_nat (length payload) + 12)).2;
   chk; (le16 id).1; (le16 id).2; key; t1; t2; t3]
  ++ map (fun x => Z.lxor x key) payload ++ [r1; r2].

(** The fields of a record. *)
Record rec : Type := Rec {
  rec_id : Z;
  rec_key : Z;
  rec_chk : Z;
  rec_t1 : Z; rec_t2 : Z; rec_t3 : Z;
  rec_payload : list Z;
  rec_r1 : Z; rec_r2 : Z
}.

(** The value of its length field. *)
Definition rec_length (r : rec) : Z :=
  Z.of_nat (length (rec_payload r)) + 12.

Definition bytes_of (r : rec) : list Z :=
  record_bytes (rec_id r) (rec_key r) (rec_chk r)
               (rec_t1 r) (rec_t2 r) (rec_t3 r)
               (rec_payload r) (rec_r1 r) (rec_r2 r).

(** The id fits sixteen bits and the length field is positive as a signed
    sixteen-bit value. *)
Definition well_formed (r : rec) : bool :=
  (0 <=? rec_id r) && (rec_id r <? 65536) && (rec_length r <? 32768).

(** A stream: records one after the other, then the two trailing bytes. *)
Definition stream (recs : list rec) (c1 c2 : Z) : list Z :=
  concat (map bytes_of recs) ++ [c1; c2].

(** What [LogData.update] is to do with the records of a stream: the
    [if id == ... elif ... else] of the loop body on each, in order, up to
    the first exception. *)
Fixpoint handle (recs : list rec) : M LogData.state unit :=
  match recs with
  | [] => ret tt
  | r :: rest =>
      bind (LogData.dispatch (rec_id r) (rec_length r) (rec_payload r))
           (fun _ => handle rest)
  end.

End Stream.

(** ** The time command

    [pkt = Packet(cmd, pkt_type); pkt.add_byte(v); pkt.add_time(t);
    pkt.fixup(seq_num)], then [pkt.get_time()] on the same packet. *)

Module TimeCommand.

Import Packet.
Local Open Scope py_scope.

Definition send_and_read (crc8 crc16 : list Z -> Z) (now : datetime)
    (cmd pkt_type v : Z) (t : time) (seq_num : Z)
  : (exn + datetime) * list Z :=
  match init (CmdInt cmd) pkt_type with
  | inl e => (inl e, [])
  | inr b =>
      (add_byte v ;; add_time t ;; fixup crc8 crc16 seq_num ;;
       get_time now None) b
  end.

End TimeCommand.

(** * Properties *)

(** ** Bytes and indices *)

(** Literal indices: [Z.to_nat] of a numeral is computed in place. *)
Ltac to_nat_lit :=
  change (Z.to_nat 0) with 0%nat in *;
  repeat match goal with
         | |- context [Z.to_nat (Zpos ?p)] =>
             let n := eval compute in (Z.to_nat (Zpos p)) in
             change (Z.to_nat (Zpos p)) with n
         end.

Section PyFacts.

Lemma land_255_range (v : Z) : 0 <= Z.land v 255 < 256.
Proof.
  change 255 with (Z.ones 8).
  rewrite Z.land_ones by lia.
  apply Z.mod_pos_bound; lia.
Qed.

Lemma is_byte_land (v : Z) : is_byte (Z.land v 255) = true.
Proof.
  unfold is_byte. pose proof (land_255_range v).
  apply andb_true_intro; split; [apply Z.leb_le | apply Z.ltb_lt]; lia.
Qed.

Lemma is_byte_spec (v : Z) : is_byte v = true <-> 0 <= v < 256.
Proof.
  unfold is_byte. rewrite andb_true_iff, Z.leb_le, Z.ltb_lt. reflexivity.
Qed.

(** The two bytes of [le16], read back low byte first, give the value when
    it fits sixteen bits. *)
Lemma le16_join (c : Z) :
  0 <= c < 65536 ->
  (le16 c).1 + 256 * (le16 c).2 = c.
Proof.
  intros Hc. unfold le16. simpl.
  change 255 with (Z.ones 8).
  rewrite !Z.land_ones by lia.
  rewrite Z.shiftr_div_pow2 by lia.
  change (2 ^ 8) with 256.
  rewrite (Z.mod_small (c / 256)).
  - pose proof (Z.div_mod c 256). lia.
  - split; [apply Z.div_pos; lia | apply Z.div_lt_upper_bound; lia].
Qed.

Lemma normalize_index_in (n : nat) (i : Z) :
  0 <= i < Z.of_nat n -> normalize_index n i = Some (Z.to_nat i).
Proof.
  intros [H0 H1]. unfold normalize_index.
  destruct (Z.ltb_spec i 0) as [?|_]; [lia|].
  destruct (Z.leb_spec 0 i) as [_|?]; [|lia].
  destruct (Z.ltb_spec i (Z.of_nat n)) as [_|?]; [|lia].
  reflexivity.
Qed.

Lemma normalize_index_past (n : nat) (i : Z) :
  Z.of_nat n <= i -> normalize_index n i = None.
Proof.
  intros H. unfold normalize_index.
  destruct (Z.ltb_spec i 0) as [?|_]; [lia|].
  destruct (Z.ltb_spec i (Z.of_nat n)) as [?|_]; [lia|].
  rewrite andb_false_r. reflexivity.
Qed.

Lemma getitem_in (l : list Z) (i : Z) :
  0 <= i < Z.of_nat (length l) ->
  getitem l i = inr (byte_at l (Z.to_nat i)).
Proof.
  intros H. unfold getitem, byte_at. rewrite normalize_index_in by exact H.
  destruct (lookup_lt_is_Some_2 l (Z.to_nat i)) as [v Hv]; [lia|].
  rewrite Hv. reflexivity.
Qed.

Lemma getitem_past (l : list Z) (i : Z) :
  Z.of_nat (length l) <= i -> getitem l i = inl IndexError.
Proof.
  intros H. unfold getitem. rewrite normalize_index_past by exact H.
  reflexivity.
Qed.

Lemma setitem_in (l : list Z) (i v : Z) :
  0 <= i < Z.of_nat (length l) ->
  setitem l i v =
    if is_byte v then inr (<[Z.to_nat i := v]> l) else inl ValueError.
Proof.
  intros H. unfold setitem. rewrite normalize_index_in by exact H.
  reflexivity.
Qed.

Lemma setitem_past (l : list Z) (i v : Z) :
  Z.of_nat (length l) <= i -> setitem l i v = inl IndexError.
Proof.
  intros H. unfold setitem. rewrite normalize_index_past by exact H.
  reflexivity.
Qed.

Lemma clamp_bound_in (n : nat) (i : Z) :
  0 <= i <= Z.of_nat n -> clamp_bound n i = Z.to_nat i.
Proof.
  intros H. unfold clamp_bound.
  destruct (Z.ltb_spec i 0) as [?|_]; [lia|].
  f_equal. lia.
Qed.

(** [l[a:b]] for bounds in range is the plain sub-list. *)
Lemma slice_in (l : list Z) (a b : Z) :
  0 <= a <= Z.of_nat (length l) -> 0 <= b <= Z.of_nat (length l) ->
  slice l a b = take (Z.to_nat b - Z.to_nat a) (drop (Z.to_nat a) l).
Proof.
  intros Ha Hb. unfold slice. rewrite !clamp_bound_in by assumption.
  reflexivity.
Qed.

(** A sequence of two steps returns only if both do. *)
Lemma bind_inr_inv {S A B} (m : M S A) (k : A -> M S B) (s s' : S) (y : B) :
  bind m k s = (inr y, s') ->
  exists a s1, m s = (inr a, s1) /\ k a s1 = (inr y, s').
Proof.
  unfold bind. destruct (m s) as [[e|a] s1]; [discriminate|].
  intros H. exists a, s1. split; [reflexivity | exact H].
Qed.

End PyFacts.

(** ** Packet: the appending methods *)

Section PacketFacts.

Import Packet.
Local Open Scope py_scope.

Lemma add_byte_appends (v : Z) (b : list Z) :
  add_byte v b = (inr tt, b ++ [Z.land v 255]).
Proof.
  unfold add_byte, buf_append. rewrite is_byte_land. reflexivity.
Qed.

Lemma add_int16_appends (v : Z) (b : list Z) :
  add_int16 v b = (inr tt, b ++ [Z.land v 255; Z.land (Z.shiftr v 8) 255]).
Proof.
  unfold add_int16, bind. rewrite !add_byte_appends.
  rewrite <- app_assoc. reflexivity.
Qed.

Lemma low_byte_high_zero (x : Z) :
  Z.land (Z.shiftr (Z.land x 255) 8) 255 = 0.
Proof.
  pose proof (land_255_range x) as H.
  rewrite Z.shiftr_div_pow2 by lia. change (2 ^ 8) with 256.
  rewrite Z.div_small by lia. reflexivity.
Qed.

Lemma low_byte_idem (x : Z) : Z.land (Z.land x 255) 255 = Z.land x 255.
Proof. rewrite <- Z.land_assoc. reflexivity. Qed.

(** The ten bytes of [add_time]: three 16-bit fields, then the low and the
    high byte of the millisecond value, each followed by a zero byte. *)
Lemma add_time_appends (t : time) (b : list Z) :
  add_time t b =
    (inr tt,
     b ++ [Z.land (hour t) 255; Z.land (Z.shiftr (hour t) 8) 255;
           Z.land (minute t) 255; Z.land (Z.shiftr (minute t) 8) 255;
           Z.land (second t) 255; Z.land (Z.shiftr (second t) 8) 255;
           Z.land (millisecond t) 255; 0;
           Z.land (Z.shiftr (millisecond t) 8) 255; 0]).
Proof.
  unfold add_time, bind. rewrite !add_int16_appends.
  rewrite !low_byte_high_zero, !low_byte_idem.
  rewrite <- !app_assoc. reflexivity.
Qed.

Lemma apply_ops_appends (ops : list Build.append_op) (b : list Z) :
  Build.apply_ops ops b = (inr tt, b ++ Build.payload_of ops).
Proof.
  revert b. induction ops as [|op ops IH]; intros b.
  - simpl. rewrite app_nil_r. reflexivity.
  - simpl. unfold bind.
    destruct op as [v|v]; simpl.
    + rewrite add_byte_appends, IH. rewrite <- app_assoc. reflexivity.
    + rewrite add_int16_appends, IH. rewrite <- app_assoc. reflexivity.
Qed.

Lemma init_int (cmd pkt_type : Z) :
  init (CmdInt cmd) pkt_type =
    if is_byte pkt_type
    then inr [START_OF_PACKET; 0; 0; 0; pkt_type;
              Z.land cmd 255; Z.land (Z.shiftr cmd 8) 255; 0; 0]
    else inl ValueError.
Proof.
  unfold init, bytearray_of. simpl.
  rewrite !is_byte_land. simpl.
  destruct (is_byte pkt_type); reflexivity.
Qed.

(** ** Packet: [fixup] *)

Lemma bind_buf_set_in {A} (i v : Z) (k : unit -> M (list Z) A) (b : list Z) :
  0 <= i < Z.of_nat (length b) ->
  is_byte v = true ->
  bind (buf_set i v) k b = k tt (<[Z.to_nat i := v]> b).
Proof.
  intros Hi Hv. unfold bind, buf_set.
  rewrite setitem_in by exact Hi. rewrite Hv. reflexivity.
Qed.

Lemma bind_buf_set_not_byte {A} (i v : Z) (k : unit -> M (list Z) A) (b : list Z) :
  0 <= i < Z.of_nat (length b) ->
  is_byte v = false ->
  bind (buf_set i v) k b = (inl ValueError, b).
Proof.
  intros Hi Hv. unfold bind, buf_set.
  rewrite setitem_in by exact Hi. rewrite Hv. reflexivity.
Qed.

Lemma bind_buf_set_past {A} (i v : Z) (k : unit -> M (list Z) A) (b : list Z) :
  Z.of_nat (length b) <= i ->
  bind (buf_set i v) k b = (inl IndexError, b).
Proof.
  intros Hi. unfold bind, buf_set.
  rewrite setitem_past by exact Hi. reflexivity.
Qed.

Lemma bind_buf_get_in {A} (i : Z) (k : Z -> M (list Z) A) (b : list Z) :
  0 <= i < Z.of_nat (length b) ->
  bind (buf_get i) k b = k (byte_at b (Z.to_nat i)) b.
Proof.
  intros Hi. unfold bind, buf_get.
  rewrite getitem_in by exact Hi. reflexivity.
Qed.

Lemma bind_buf_len {A} (k : Z -> M (list Z) A) (b : list Z) :
  bind buf_len k b = k (Z.of_nat (length b)) b.
Proof. reflexivity. Qed.

Lemma bind_buf_slice {A} (i j : Z) (k : list Z -> M (list Z) A) (b : list Z) :
  bind (buf_slice i j) k b = k (slice b i j) b.
Proof. reflexivity. Qed.

Lemma bind_get_buffer {A} (k : list Z -> M (list Z) A) (b : list Z) :
  bind get_buffer k b = k b b.
Proof. reflexivity. Qed.

Lemma byte_at_insert_eq (l : list Z) (i : nat) (v : Z) :
  (i < length l)%nat -> byte_at (<[i := v]> l) i = v.
Proof.
  intros H. unfold byte_at. rewrite list_lookup_insert_eq by exact H.
  reflexivity.
Qed.

Lemma byte_at_insert_ne (l : list Z) (i j : nat) (v : Z) :
  i <> j -> byte_at (<[i := v]> l) j = byte_at l j.
Proof.
  intros H. unfold byte_at. rewrite list_lookup_insert_ne by exact H.
  reflexivity.
Qed.

Section Fixup.

Variable crc8 : list Z -> Z.
Variable crc16 : list Z -> Z.

Lemma with_length_length (b : list Z) : length (with_length b) = length b.
Proof. unfold with_length. rewrite !length_insert. reflexivity. Qed.

Lemma with_shift_length (b : list Z) : length (with_shift b) = length b.
Proof. unfold with_shift. rewrite length_insert. apply with_length_length. Qed.

Lemma with_header_length (s : Z) (b : list Z) :
  length (with_header crc8 s b) = length b.
Proof. unfold with_header. rewrite !length_insert. apply with_shift_length. Qed.

(** [fixup] on a buffer of at least nine bytes that starts with the sync
    marker: the two assignments that can raise, in order. *)
Lemma fixup_long (seq_num : Z) (b : list Z) :
  b !! 0%nat = Some START_OF_PACKET ->
  9 <= Z.of_nat (length b) ->
  fixup crc8 crc16 seq_num b =
    if is_byte (Z.shiftl (le16 (Z.of_nat (length b) + 2)).1 3) then
      if is_byte (crc8 (take 3 (with_shift b))) then
        (inr tt, framed crc8 crc16 seq_num b)
      else (inl ValueError, with_shift b)
    else (inl ValueError, with_length b).
Proof.
  intros H0 Hn. unfold fixup.
  rewrite bind_buf_get_in by lia.
  unfold byte_at at 1. to_nat_lit. rewrite H0. simpl default.
  rewrite Z.eqb_refl.
  rewrite bind_buf_len.
  rewrite bind_buf_set_in by (try apply is_byte_land; lia).
  rewrite bind_buf_set_in
    by (try apply is_byte_land; rewrite ?length_insert; lia).
  to_nat_lit. fold (with_length b).
  rewrite bind_buf_get_in by (rewrite with_length_length; lia).
  to_nat_lit.
  assert (byte_at (with_length b) 1 = (le16 (Z.of_nat (length b) + 2)).1)
    as ->.
  { unfold with_length. rewrite byte_at_insert_ne by lia.
    apply byte_at_insert_eq. lia. }
  destruct (is_byte (Z.shiftl (le16 (Z.of_nat (length b) + 2)).1 3)) eqn:Hs.
  2: { apply bind_buf_set_not_byte;
         [rewrite with_length_length; lia | exact Hs]. }
  rewrite bind_buf_set_in by (rewrite ?with_length_length; auto; lia).
  to_nat_lit. fold (with_shift b).
  rewrite bind_buf_slice.
  rewrite slice_in by (rewrite with_shift_length; lia).
  to_nat_lit. simpl drop. change (3 - 0)%nat with 3%nat.
  destruct (is_byte (crc8 (take 3 (with_shift b)))) eqn:Hc.
  2: { apply bind_buf_set_not_byte;
         [rewrite with_shift_length; lia | exact Hc]. }
  rewrite bind_buf_set_in by (rewrite ?with_shift_length; auto; lia).
  rewrite bind_buf_set_in
    by (try apply is_byte_land; rewrite ?length_insert, ?with_shift_length; lia).
  rewrite bind_buf_set_in
    by (try apply is_byte_land; rewrite ?length_insert, ?with_shift_length; lia).
  to_nat_lit. fold (with_header crc8 seq_num b).
  rewrite bind_get_buffer.
  apply add_int16_appends.
Qed.

Lemma buf_set_inr_inv (i v : Z) (b b1 : list Z) (u : unit) :
  0 <= i ->
  buf_set i v b = (inr u, b1) ->
  i < Z.of_nat (length b) /\ length b1 = length b.
Proof.
  intros Hi. unfold buf_set.
  destruct (Z.lt_ge_cases i (Z.of_nat (length b))) as [Hlt|Hge].
  - rewrite setitem_in by lia. destruct (is_byte v); [|discriminate].
    intros E. assert (b1 = <[Z.to_nat i := v]> b) as -> by congruence.
    rewrite length_insert. split; [exact Hlt | reflexivity].
  - rewrite setitem_past by exact Hge. discriminate.
Qed.

Lemma buf_get_inr_inv (i v : Z) (b b1 : list Z) :
  buf_get i b = (inr v, b1) -> b1 = b.
Proof.
  unfold buf_get. destruct (getitem b i); [discriminate|].
  intros E. congruence.
Qed.

(** When [fixup] returns on a buffer that starts with the sync marker, the
    buffer had its nine header bytes: the assignment to [buf[8]] went
    through. *)
Lemma fixup_returns_long (seq_num : Z) (b b' : list Z) :
  b !! 0%nat = Some START_OF_PACKET ->
  fixup crc8 crc16 seq_num b = (inr tt, b') ->
  9 <= Z.of_nat (length b).
Proof.
  intros H0 H. unfold fixup in H.
  apply bind_inr_inv in H as (v0 & s0 & Hg & H).
  pose proof (buf_get_inr_inv _ _ _ _ Hg) as ->.
  assert (v0 = START_OF_PACKET) as ->.
  { unfold buf_get, getitem in Hg.
    destruct b as [|x b]; [discriminate|].
    simpl in H0. injection H0 as ->.
    rewrite normalize_index_in in Hg by (simpl length; lia).
    simpl in Hg. congruence. }
  rewrite Z.eqb_refl in H.
  apply bind_inr_inv in H as (n & s1 & Hl & H).
  injection Hl as <- <-.
  apply bind_inr_inv in H as (u1 & s2 & H1 & H).
  apply buf_set_inr_inv in H1 as [_ L2]; [|lia].
  apply bind_inr_inv in H as (u2 & s3 & H2 & H).
  apply buf_set_inr_inv in H2 as [_ L3]; [|lia].
  apply bind_inr_inv in H as (v1 & s4 & H3 & H).
  pose proof (buf_get_inr_inv _ _ _ _ H3) as ->.
  apply bind_inr_inv in H as (u3 & s5 & H4 & H).
  apply buf_set_inr_inv in H4 as [_ L5]; [|lia].
  apply bind_inr_inv in H as (hdr & s6 & H5 & H).
  injection H5 as <- <-.
  apply bind_inr_inv in H as (u4 & s7 & H6 & H).
  apply buf_set_inr_inv in H6 as [_ L7]; [|lia].
  apply bind_inr_inv in H as (u5 & s8 & H7 & H).
  apply buf_set_inr_inv in H7 as [_ L8]; [|lia].
  apply bind_inr_inv in H as (u6 & s9 & H8 & H).
  apply buf_set_inr_inv in H8 as [B8 _]; [|lia].
  lia.
Qed.

(** [fixup] on a shorter buffer that starts with the sync marker raises. *)
Lemma fixup_short (seq_num : Z) (b : list Z) :
  b !! 0%nat = Some START_OF_PACKET ->
  Z.of_nat (length b) < 9 ->
  exists e, (fixup crc8 crc16 seq_num b).1 = inl e.
Proof.
  intros H0 Hn.
  destruct (fixup crc8 crc16 seq_num b) as [[e|[]] b'] eqn:E.
  - exists e. reflexivity.
  - apply fixup_returns_long in E; [lia | exact H0].
Qed.

(** When [fixup] returns on a buffer that starts with the sync marker, the
    buffer it leaves is [framed]. *)
Lemma fixup_returns_framed (seq_num : Z) (b b' : list Z) :
  b !! 0%nat = Some START_OF_PACKET ->
  fixup crc8 crc16 seq_num b = (inr tt, b') ->
  9 <= Z.of_nat (length b) /\ b' = framed crc8 crc16 seq_num b.
Proof.
  intros H0 H.
  pose proof (fixup_returns_long _ _ _ H0 H) as Hn.
  split; [exact Hn|].
  rewrite fixup_long in H by assumption.
  destruct (is_byte _); [|discriminate].
  destruct (is_byte _); [|discriminate].
  congruence.
Qed.

(** [fixup] on a non-empty buffer that does not start with the sync marker
    changes nothing. *)
Lemma fixup_no_sync (seq_num : Z) (b0 : Z) (b : list Z) :
  b0 <> START_OF_PACKET ->
  fixup crc8 crc16 seq_num (b0 :: b) = (inr tt, b0 :: b).
Proof.
  intros H. unfold fixup.
  rewrite bind_buf_get_in by (simpl length; lia).
  unfold byte_at. simpl.
  destruct (Z.eqb_spec b0 START_OF_PACKET) as [?|_]; [contradiction|].
  reflexivity.
Qed.

Lemma fixup_empty (seq_num : Z) :
  fixup crc8 crc16 seq_num [] = (inl IndexError, []).
Proof. reflexivity. Qed.

(** [get_data] of a framed packet is what followed the nine header
    bytes. *)
Lemma get_data_framed (seq_num : Z) (b : list Z) :
  9 <= Z.of_nat (length b) ->
  get_data (framed crc8 crc16 seq_num b) = drop 9 b.
Proof.
  intros Hn. unfold get_data, framed.
  rewrite slice_in
    by (rewrite length_app, with_header_length; simpl length; lia).
  rewrite length_app, with_header_length. simpl length.
  rewrite drop_app_le by (rewrite with_header_length; lia).
  assert (drop (Z.to_nat 9) (with_header crc8 seq_num b) = drop 9 b) as ->.
  { to_nat_lit. unfold with_header, with_shift, with_length.
    rewrite !drop_insert_lt by lia. reflexivity. }
  apply take_app_length'. rewrite length_drop. lia.
Qed.

Lemma shifted_length_byte (n : Z) :
  is_byte (Z.shiftl (le16 n).1 3) = true <-> Z.land n 255 < 32.
Proof.
  unfold le16. simpl. pose proof (land_255_range n) as H.
  rewrite is_byte_spec, Z.shiftl_mul_pow2 by lia.
  change (2 ^ 3) with 8. lia.
Qed.

(** The defect of [fixup]: [buf[1] << 3] is assigned to a bytearray item
    unmasked, so the assignment raises as soon as the low byte of
    [len(buf)+2] reaches 32.  The length bytes were already written. *)
Lemma fixup_raises_on_overflow (seq_num : Z) (b : list Z) :
  b !! 0%nat = Some START_OF_PACKET ->
  9 <= Z.of_nat (length b) ->
  32 <= Z.land (Z.of_nat (length b) + 2) 255 ->
  fixup crc8 crc16 seq_num b = (inl ValueError, with_length b).
Proof.
  intros H0 Hn Hlo. rewrite fixup_long by assumption.
  destruct (is_byte _) eqn:E; [|reflexivity].
  apply shifted_length_byte in E. lia.
Qed.

Hypothesis crc8_byte : forall l, is_byte (crc8 l) = true.

Lemma fixup_returns (seq_num : Z) (b : list Z) :
  b !! 0%nat = Some START_OF_PACKET ->
  9 <= Z.of_nat (length b) ->
  Z.land (Z.of_nat (length b) + 2) 255 < 32 ->
  fixup crc8 crc16 seq_num b = (inr tt, framed crc8 crc16 seq_num b).
Proof.
  intros H0 Hn Hlo. rewrite fixup_long by assumption.
  rewrite (proj2 (shifted_length_byte _) Hlo), crc8_byte. reflexivity.
Qed.

(** The round trip of a command packet whose length leaves the shifted
    length byte in range. *)
Lemma command_payload_round_trip
    (cmd pkt_type : Z) (ops : list Build.append_op) (seq_num : Z) :
  is_byte pkt_type = true ->
  Z.land (Z.of_nat (length (Build.payload_of ops)) + 11) 255 < 32 ->
  Build.command_payload crc8 crc16 cmd pkt_type ops seq_num
    = inr (Build.payload_of ops).
Proof.
  intros Ht Hlo. unfold Build.command_payload, Build.command_packet.
  rewrite init_int, Ht. unfold bind at 1.
  rewrite apply_ops_appends.
  rewrite fixup_returns.
  - f_equal. rewrite get_data_framed.
    + reflexivity.
    + rewrite length_app. simpl length. lia.
  - reflexivity.
  - rewrite length_app. simpl length. lia.
  - rewrite length_app. simpl length.
    replace (Z.of_nat (9 + length (Build.payload_of ops)) + 2)
      with (Z.of_nat (length (Build.payload_of ops)) + 11) by lia.
    exact Hlo.
Qed.

End Fixup.

(** ** Packet: [add_time] and [get_time] *)

Lemma low_byte_small (v : Z) : 0 <= v < 256 -> Z.land v 255 = v.
Proof.
  intros Hv. change 255 with (Z.ones 8). rewrite Z.land_ones by lia.
  apply Z.mod_small. change (2 ^ 8) with 256. lia.
Qed.

Lemma high_byte_small (v : Z) :
  0 <= v < 256 -> Z.land (Z.shiftr v 8) 255 = 0.
Proof.
  intros Hv. rewrite Z.shiftr_div_pow2 by lia.
  change (2 ^ 8) with 256. rewrite Z.div_small by lia. reflexivity.
Qed.

(** With a second byte 0, [int16] returns the first byte. *)
Lemma int16_high_zero (v : Z) : 0 <= v < 256 -> int16 v 0 = v.
Proof.
  intros Hv. unfold int16.
  change (Z.shiftl (Z.land 0 255) 8) with 0.
  rewrite Z.lor_0_r, low_byte_small by lia.
  unfold to_signed16. destruct (Z.ltb_spec v 32768); [reflexivity | lia].
Qed.

End PacketFacts.

(** ** Packet: the claims *)

Section PacketClaims.

Import Packet.

Lemma sample_crc8_byte (l : list Z) : is_byte (Sample.crc8 l) = true.
Proof. apply is_byte_land. Qed.

Lemma sample_crc16_range (l : list Z) : 0 <= Sample.crc16 l < 65536.
Proof.
  unfold Sample.crc16. change 65535 with (Z.ones 16).
  rewrite Z.land_ones by lia. apply Z.mod_pos_bound. lia.
Qed.

(** Every command packet whose payload brings the low byte of
    [len(buf)+2] to 32 or more makes [fixup] raise: with the nine header
    bytes, payloads of 21 to 244 bytes, and again every 256 bytes. *)
Lemma command_packet_raises (crc8 crc16 : list Z -> Z)
    (cmd pkt_type : Z) (ops : list Build.append_op) (seq_num : Z) :
  is_byte pkt_type = true ->
  32 <= Z.land (Z.of_nat (length (Build.payload_of ops)) + 11) 255 ->
  (Build.command_packet crc8 crc16 cmd pkt_type ops seq_num).1
    = inl ValueError.
Proof.
  intros Ht Hlo. unfold Build.command_packet.
  rewrite init_int, Ht. unfold bind at 1.
  rewrite apply_ops_appends.
  rewrite fixup_raises_on_overflow.
  - reflexivity.
  - reflexivity.
  - rewrite length_app. simpl length. lia.
  - rewrite length_app. simpl length.
    replace (Z.of_nat (9 + length (Build.payload_of ops)) + 2)
      with (Z.of_nat (length (Build.payload_of ops)) + 11) by lia.
    exact Hlo.
Qed.

(** C1, at the input where the code departs from it: a packet built by
    [Packet(STICK_CMD)] with 21 payload bytes appended by [add_byte] is 30
    bytes long, [le16(32)] puts 32 in [buf[1]], and [buf[1] = (buf[1] << 3)]
    assigns 256 to a bytearray item: [fixup] raises ValueError instead of
    framing the packet, whatever the checksum provider and the sequence
    number; the buffer is left with the unshifted length bytes and without
    crc16, and [get_data] on it gives 19 of the 21 payload bytes. *)
Theorem fixup_raises_on_21_byte_payload :
  forall (crc8 crc16 : list Z -> Z) (seq_num : Z),
    Build.command_packet crc8 crc16 STICK_CMD 104
        (replicate 21 (Build.AddByte 0)) seq_num
      = (inl ValueError,
         [204; 32; 0; 0; 104; 80; 0; 0; 0] ++ replicate 21 0)
    /\ Build.command_payload crc8 crc16 STICK_CMD 104
         (replicate 21 (Build.AddByte 0)) seq_num
       = inl ValueError
    /\ get_data ([204; 32; 0; 0; 104; 80; 0; 0; 0] ++ replicate 21 0)
       = replicate 19 0.
Proof.
  intros crc8 crc16 seq_num.
  assert (Build.command_packet crc8 crc16 STICK_CMD 104
            (replicate 21 (Build.AddByte 0)) seq_num
          = (inl ValueError,
             [204; 32; 0; 0; 104; 80; 0; 0; 0] ++ replicate 21 0)) as E.
  { unfold Build.command_packet.
    rewrite init_int. change (is_byte 104) with true. cbv iota.
    unfold bind at 1. rewrite apply_ops_appends.
    rewrite fixup_raises_on_overflow.
    - reflexivity.
    - reflexivity.
    - vm_compute. discriminate.
    - vm_compute. discriminate. }
  split; [exact E|]. split; [|reflexivity].
  unfold Build.command_payload. rewrite E. reflexivity.
Qed.

(** C2: when [fixup] returns on a buffer whose first byte is the sync
    marker 0xCC, byte 3 of the buffer it leaves is [crc8] of the first three
    bytes of that buffer, and its last two bytes, read low byte first, are
    [crc16] of all the bytes before them (for a [crc16] with 16-bit
    values).  The sequence number written at offsets 7 and 8 after the
    crc8 was stored does not touch what the crc8 covers. *)
Theorem fixup_stamps_checksums
    (crc8 crc16 : list Z -> Z)
    (crc16_range : forall l, 0 <= crc16 l < 65536)
    (seq_num : Z) (b b' : list Z) :
  b !! 0%nat = Some START_OF_PACKET ->
  fixup crc8 crc16 seq_num b = (inr tt, b') ->
  b' !! 3%nat = Some (crc8 (take 3 b'))
  /\ b' !! 7%nat = Some (le16 seq_num).1
  /\ b' !! 8%nat = Some (le16 seq_num).2
  /\ exists body lo hi,
       b' = body ++ [lo; hi] /\ lo + 256 * hi = crc16 body.
Proof.
  intros H0 H.
  destruct (fixup_returns_framed _ _ _ _ _ H0 H) as [Hn ->].
  assert (3 < length (with_shift b))%nat as L3
    by (rewrite with_shift_length; lia).
  unfold framed.
  rewrite !lookup_app_l by (rewrite with_header_length; lia).
  rewrite take_app_le by (rewrite with_header_length; lia).
  unfold with_header.
  repeat split.
  - rewrite !list_lookup_insert_ne by lia.
    rewrite list_lookup_insert_eq by exact L3.
    rewrite !take_insert_ge by lia. reflexivity.
  - rewrite list_lookup_insert_ne by lia.
    apply list_lookup_insert_eq.
    rewrite length_insert, with_shift_length. lia.
  - apply list_lookup_insert_eq.
    rewrite !length_insert, with_shift_length. lia.
  - eexists _, _, _. split; [reflexivity|].
    apply (le16_join (crc16 _)). apply crc16_range.
Qed.

Lemma fixup_stamps_checksums_witness :
  [204; 88; 0; 155; 104; 80; 0; 5; 0; 14; 57] !! 3%nat
    = Some (Sample.crc8 (take 3 [204; 88; 0; 155; 104; 80; 0; 5; 0; 14; 57]))
  /\ [204; 88; 0; 155; 104; 80; 0; 5; 0; 14; 57] !! 7%nat = Some (le16 5).1
  /\ [204; 88; 0; 155; 104; 80; 0; 5; 0; 14; 57] !! 8%nat = Some (le16 5).2
  /\ exists body lo hi,
       [204; 88; 0; 155; 104; 80; 0; 5; 0; 14; 57] = body ++ [lo; hi]
       /\ lo + 256 * hi = Sample.crc16 body.
Proof.
  apply (fixup_stamps_checksums Sample.crc8 Sample.crc16 sample_crc16_range
           5 [204; 0; 0; 0; 104; 80; 0; 0; 0]).
  - reflexivity.
  - vm_compute. reflexivity.
Defined.

(** C3, where it fails on the code: [fixup] raises IndexError on an empty
    buffer ([buf[0]]) and on a buffer that holds the sync marker alone
    (the assignment to [buf[1]]). *)
Lemma fixup_raises_on_short_buffers :
  fixup Sample.crc8 Sample.crc16 0 [] = (inl IndexError, [])
  /\ fixup Sample.crc8 Sample.crc16 0 [START_OF_PACKET]
     = (inl IndexError, [START_OF_PACKET]).
Proof. split; reflexivity. Qed.

(** C3, amended: [add_byte], [add_int16] and [add_time] return for every
    buffer and every argument, appending one, two and ten bytes.  With a
    [crc8] that returns bytes, [fixup] returns, leaving the buffer as it
    is, on every non-empty buffer that does not start with the sync marker,
    and returns the framed packet on every buffer of at least nine bytes
    that starts with the sync marker and whose length [n] has
    [(n + 2) & 0xff < 32]; it raises on the empty buffer and on every
    shorter buffer that starts with the sync marker. *)
Theorem building_operations_return
    (crc8 crc16 : list Z -> Z)
    (crc8_byte : forall l, is_byte (crc8 l) = true) :
  (forall v b, add_byte v b = (inr tt, b ++ [Z.land v 255]))
  /\ (forall v b,
        add_int16 v b
          = (inr tt, b ++ [Z.land v 255; Z.land (Z.shiftr v 8) 255]))
  /\ (forall t b,
        exists ten, length ten = 10%nat /\ add_time t b = (inr tt, b ++ ten))
  /\ (forall seq_num b0 b,
        b0 <> START_OF_PACKET ->
        fixup crc8 crc16 seq_num (b0 :: b) = (inr tt, b0 :: b))
  /\ (forall seq_num b,
        b !! 0%nat = Some START_OF_PACKET ->
        9 <= Z.of_nat (length b) ->
        Z.land (Z.of_nat (length b) + 2) 255 < 32 ->
        fixup crc8 crc16 seq_num b = (inr tt, framed crc8 crc16 seq_num b))
  /\ (forall seq_num, fixup crc8 crc16 seq_num [] = (inl IndexError, []))
  /\ (forall seq_num b,
        b !! 0%nat = Some START_OF_PACKET ->
        Z.of_nat (length b) < 9 ->
        exists e, (fixup crc8 crc16 seq_num b).1 = inl e).
Proof.
  split; [exact add_byte_appends|].
  split; [exact add_int16_appends|].
  split.
  { intros t b. eexists. split; [|apply add_time_appends]. reflexivity. }
  split; [intros; apply fixup_no_sync; assumption|].
  split; [intros; apply fixup_returns; assumption|].
  split; [intros; reflexivity|].
  intros. apply fixup_short; assumption.
Qed.

Lemma building_operations_return_witness :
  add_byte 300 [1] = (inr tt, [1; 44])
  /\ fixup Sample.crc8 Sample.crc16 5 [3; 204] = (inr tt, [3; 204])
  /\ fixup Sample.crc8 Sample.crc16 5 [204; 0; 0; 0; 104; 80; 0; 0; 0]
     = (inr tt, [204; 88; 0; 155; 104; 80; 0; 5; 0; 14; 57]).
Proof.
  destruct (building_operations_return Sample.crc8 Sample.crc16
              sample_crc8_byte) as (Hb & _ & _ & Hn & Hf & _).
  split; [apply (Hb 300 [1])|].
  split; [apply (Hn 5 3 [204]); discriminate|].
  apply (Hf 5 [204; 0; 0; 0; 104; 80; 0; 0; 0]).
  - reflexivity.
  - vm_compute. discriminate.
  - vm_compute. reflexivity.
Defined.

Lemma datetime_new_valid (y mo d h mi s us : Z) :
  0 <= h < 24 -> 0 <= mi < 60 -> 0 <= s < 60 -> 0 <= us < 1000000 ->
  datetime_new y mo d h mi s us = inr (Datetime y mo d h mi s us).
Proof.
  intros Hh Hm Hs Hu. unfold datetime_new.
  rewrite !(proj2 (Z.leb_le _ _)), !(proj2 (Z.ltb_lt _ _)) by lia.
  reflexivity.
Qed.

End PacketClaims.

(** ** FlightData: the claims *)

Section FlightDataClaims.

Import FlightData.

(** C4, where it fails on the code: byte 10 of the example is 0b00010001,
    whose bit 3 is clear and whose bit 4 is set, so the decoder gives
    [power_state = 0] and [battery_state = 1]. *)
Lemma example_power_state_is_zero :
  power_state (init example_payload) = 0
  /\ battery_state (init example_payload) = 1.
Proof. split; reflexivity. Qed.

(** C4, amended: decoding the 24-byte example payload gives height=10,
    north_speed=5, fly_time=100, imu_state=1, power_state=0,
    battery_state=1, imu_calibration_state=5, battery_percentage=50,
    em_sky=1, em_open=1, fly_mode=2, throw_fly_timer=3, camera_state=7,
    electrical_machinery_state=1, front_in=1, front_out=1,
    temperature_height=1, and 0 in every other field. *)
Theorem example_payload_decodes :
  init example_payload =
    {| height := 10; north_speed := 5; east_speed := 0;
       vertical_speed := 0; fly_time := 100;
       imu_state := 1; pressure_state := 0; down_visual_state := 0;
       power_state := 0; battery_state := 1; gravity_state := 0;
       wind_state := 0;
       imu_calibration_state := 5; battery_percentage := 50;
       drone_fly_time_left := 0; drone_battery_left := 0;
       em_sky := 1; em_ground := 0; em_open := 1; drone_hover := 0;
       outage_recording := 0; battery_low := 0; battery_lower := 0;
       factory_mode := 0;
       fly_mode := 2; throw_fly_timer := 3; camera_state := 7;
       electrical_machinery_state := 1;
       front_in := 1; front_out := 1; front_lsc := 0;
       temperature_height := 1;
       fly_speed := 0; light_strength := 0; smart_video_exit_mode := 0;
       wifi_disturb := 0; wifi_strength := 0 |}.
Proof. vm_compute. reflexivity. Qed.

(** C5: on every input shorter than 24 bytes, the empty one included, the
    decoder returns the record whose fields are all 0; the decoder is a
    total function, it raises on no input. *)
Theorem short_payload_decodes_to_zero (data : list Z) :
  (length data < 24)%nat ->
  init data = zero.
Proof.
  intros H. unfold init.
  destruct (Z.ltb_spec (Z.of_nat (length data)) 24) as [_|Hge];
    [reflexivity | lia].
Qed.

Lemma short_payload_decodes_to_zero_witness :
  init [] = zero /\ init (replicate 23 255) = zero.
Proof.
  split; apply short_payload_decodes_to_zero; simpl; lia.
Defined.

End FlightDataClaims.

(** ** LogData: the discipline of [unknowns] *)

Section DedupeFacts.

Import LogData.
Local Open Scope py_scope.
Local Open Scope nat_scope.

Lemma reports_app (id : Z) (out1 out2 : list (nat * message)) :
  reports id (out1 ++ out2) = reports id out1 + reports id out2.
Proof. unfold reports. rewrite List.filter_app, length_app. reflexivity. Qed.

Lemma dedupe_ext_refl (w : world) : dedupe_ext w w.
Proof. unfold dedupe_ext. repeat split; intros; try lia; tauto. Qed.

Lemma dedupe_ext_trans (w1 w2 w3 : world) :
  dedupe_ext w1 w2 -> dedupe_ext w2 w3 -> dedupe_ext w1 w3.
Proof.
  intros (A1 & B1 & C1 & D1) (A2 & B2 & C2 & D2).
  repeat split.
  - intros id H. apply A2, A1, H.
  - intros id H. rewrite B2 by (apply A1, H). apply B1, H.
  - intros id.
    destruct (decide (reports id (output w2) = reports id (output w1)))
      as [E|N].
    + rewrite <- E. apply C2.
    + rewrite B2 by (apply D1, N). apply C1.
  - intros id H.
    destruct (decide (reports id (output w2) = reports id (output w1)))
      as [E|N].
    + apply D2. congruence.
    + apply A2, D1, N.
Qed.

(** A line that is not the report of an id changes nothing. *)
Lemma dedupe_ext_quiet (w : world) (lg : nat) (m : message) :
  (forall id, is_report id (lg, m) = false) ->
  dedupe_ext w (World (unknowns w) (output w ++ [(lg, m)])).
Proof.
  intros Hq.
  assert (forall id, reports id (output w ++ [(lg, m)])
                     = reports id (output w)) as E.
  { intros id. rewrite reports_app. unfold reports at 2. simpl.
    rewrite Hq. simpl. lia. }
  unfold dedupe_ext. simpl.
  repeat split; intros id; rewrite ?E; first [lia | tauto].
Qed.

(** The report of an id that was not in [unknowns], followed by its
    [append]. *)
Lemma dedupe_ext_report (w : world) (lg : nat) (id len : Z) :
  id ∉ unknowns w ->
  dedupe_ext w (World (unknowns w ++ [id])
                      (output w ++ [(lg, InfoUnhandled id len)])).
Proof.
  intros Hnew.
  assert (forall i, reports i (output w ++ [(lg, InfoUnhandled id len)])
                    = reports i (output w) + (if (id =? i)%Z then 1 else 0))
    as E.
  { intros i. rewrite reports_app. unfold reports at 2. simpl.
    unfold is_report. simpl. destruct (id =? i)%Z; reflexivity. }
  unfold dedupe_ext. simpl. repeat split; intros i; rewrite ?E.
  - intros H. apply elem_of_app. left. exact H.
  - intros H. destruct (Z.eqb_spec id i) as [->|_]; [contradiction | lia].
  - destruct (id =? i)%Z; lia.
  - destruct (Z.eqb_spec id i) as [->|_]; [|lia].
    intros _. apply elem_of_app. right. apply list_elem_of_singleton.
    reflexivity.
Qed.

Lemma keeps_ret {A} (a : A) : keeps_dedupe (ret a).
Proof. intros s. apply dedupe_ext_refl. Qed.

Lemma keeps_raise {A} (e : exn) : keeps_dedupe (@raise state A e).
Proof. intros s. apply dedupe_ext_refl. Qed.

Lemma keeps_lift {A} (r : exn + A) : keeps_dedupe (lift r).
Proof. intros s. apply dedupe_ext_refl. Qed.

Lemma keeps_bind {A B} (m : M state A) (k : A -> M state B) :
  keeps_dedupe m -> (forall a, keeps_dedupe (k a)) -> keeps_dedupe (bind m k).
Proof.
  intros Hm Hk s. unfold bind.
  specialize (Hm s). destruct (m s) as [[e|a] s1]; simpl in *.
  - exact Hm.
  - eapply dedupe_ext_trans; [exact Hm | apply Hk].
Qed.

Lemma keeps_set_mvo f : keeps_dedupe (set_mvo f).
Proof. intros s. apply dedupe_ext_refl. Qed.

Lemma keeps_set_imu f : keeps_dedupe (set_imu f).
Proof. intros s. apply dedupe_ext_refl. Qed.

Lemma keeps_get_count : keeps_dedupe get_count.
Proof. intros s. apply dedupe_ext_refl. Qed.

Lemma keeps_emit_debug (m : message) :
  (forall id, is_report id (0, m) = false) -> keeps_dedupe (emit m).
Proof.
  intros Hq s. unfold emit. simpl. apply dedupe_ext_quiet.
  intros id. apply (Hq id).
Qed.

Ltac keeps :=
  repeat first
    [ apply keeps_bind; [|intros ?]
    | apply keeps_ret
    | apply keeps_raise
    | apply keeps_lift
    | apply keeps_set_mvo
    | apply keeps_set_imu
    | apply keeps_get_count
    | apply keeps_emit_debug; intros ?; reflexivity ].

Lemma keeps_mvo_update data cnt : keeps_dedupe (mvo_update data cnt).
Proof. unfold mvo_update. keeps. Qed.

Lemma keeps_imu_update data cnt : keeps_dedupe (imu_update data cnt).
Proof. unfold imu_update. keeps. Qed.

Lemma keeps_unknown (id len : Z) :
  keeps_dedupe
    (let* known := seen id in
     if known then ret tt
     else emit (InfoUnhandled id (len - 12)) ;; remember id).
Proof.
  intros s. unfold bind, seen, emit, remember, ret. simpl.
  destruct (bool_decide_reflect (id ∈ unknowns (cls s))) as [Hin|Hnew]; simpl.
  - apply dedupe_ext_refl.
  - apply dedupe_ext_report. exact Hnew.
Qed.

Lemma keeps_dispatch id len payload : keeps_dedupe (dispatch id len payload).
Proof.
  unfold dispatch.
  destruct (id =? ID_NEW_MVO_FEEDBACK)%Z.
  { apply keeps_bind; [apply keeps_get_count | intros; apply keeps_mvo_update]. }
  destruct (id =? ID_IMU_ATTI)%Z.
  { apply keeps_bind; [apply keeps_get_count | intros; apply keeps_imu_update]. }
  apply keeps_unknown.
Qed.

Lemma keeps_record data pos : keeps_dedupe (record data pos).
Proof.
  unfold record.
  apply keeps_bind; [apply keeps_lift | intros sync].
  destruct (negb _); [apply keeps_raise|].
  apply keeps_bind; [apply keeps_lift | intros len].
  apply keeps_bind; [apply keeps_lift | intros checksum].
  apply keeps_bind; [apply keeps_lift | intros id].
  apply keeps_bind; [apply keeps_lift | intros xorval].
  apply keeps_bind; [apply keeps_dispatch | intros; apply keeps_ret].
Qed.

Lemma scan_keeps (fuel : nat) (data : list Z) (pos : Z) (s : state) :
  dedupe_ext (cls s) (cls (scan fuel data pos s).2).
Proof.
  revert pos s. induction fuel as [|fuel IH]; intros pos s; simpl.
  - destruct (pos <? _)%Z; apply dedupe_ext_refl.
  - destruct (pos <? _)%Z; [|apply dedupe_ext_refl].
    pose proof (keeps_record data pos s) as Hr.
    destruct (record data pos s) as [[e|pos'] s1]; simpl in *.
    + exact Hr.
    + eapply dedupe_ext_trans; [exact Hr | apply IH].
Qed.

Lemma update_state (fuel : nat) (data : list Z) (s : state) :
  (update fuel data s).2 = (scan fuel data 0 (enter data s)).2.
Proof.
  unfold update.
  destruct (scan fuel data 0 (enter data s)) as [[pos|e|] s1]; simpl;
    [destruct (negb _)|..]; reflexivity.
Qed.

(** Every call of [update], however it ends, keeps the discipline. *)
Lemma update_keeps (fuel : nat) (data : list Z) (s : state) :
  dedupe_ext (cls s) (cls (update fuel data s).2).
Proof.
  rewrite update_state.
  eapply dedupe_ext_trans; [|apply scan_keeps].
  unfold enter. simpl. apply dedupe_ext_quiet. intros id. reflexivity.
Qed.

Lemma updates_keeps (calls : list (nat * list Z)) (s : state) :
  dedupe_ext (cls s) (cls (updates calls s)).
Proof.
  revert s. induction calls as [|[fuel data] calls IH]; intros s; simpl.
  - apply dedupe_ext_refl.
  - eapply dedupe_ext_trans; [apply update_keeps | apply IH].
Qed.

Lemma shared_calls_keeps (calls : list (t * nat * list Z)) (w : world) :
  dedupe_ext w (shared_calls calls w).
Proof.
  revert w. induction calls as [|[[o fuel] data] calls IH]; intros w; simpl.
  - apply dedupe_ext_refl.
  - eapply dedupe_ext_trans; [|apply IH].
    apply (update_keeps fuel data (State o w)).
Qed.

End DedupeFacts.

(** ** LogData: the loop *)

Section ScanFacts.

Import LogData.
Local Open Scope py_scope.

(** A turn of the loop that does not raise moves [pos] by the length
    field read at [pos + 1]. *)
Lemma record_advances (data : list Z) (pos pos' : Z) (s s' : state) :
  record data pos s = (inr pos', s') ->
  exists len, unpack_h data (pos + 1) = inr len /\ pos' = pos + len.
Proof.
  unfold record. intros H.
  apply bind_inr_inv in H as (sync & s1 & _ & H).
  destruct (negb _); [discriminate|].
  apply bind_inr_inv in H as (len & s2 & Hl & H).
  exists len. split.
  - unfold lift in Hl. congruence.
  - apply bind_inr_inv in H as (c & s3 & _ & H).
    apply bind_inr_inv in H as (id & s4 & _ & H).
    apply bind_inr_inv in H as (x & s5 & _ & H).
    apply bind_inr_inv in H as (u & s6 & _ & H).
    unfold ret in H. congruence.
Qed.

(** On such a stream the loop ends within [len(data)] turns. *)
Lemma scan_ends (data : list Z) :
  lengths_positive data ->
  forall (fuel : nat) (pos : Z) (s : state),
    0 <= pos ->
    Z.of_nat (length data) - 2 - pos <= Z.of_nat fuel ->
    (scan fuel data pos s).1 <> Unfinished.
Proof.
  intros Hpos. induction fuel as [|fuel IH]; intros pos s H0 Hf; simpl.
  - destruct (Z.ltb_spec pos (Z.of_nat (length data) - 2)); [lia|].
    discriminate.
  - destruct (Z.ltb_spec pos (Z.of_nat (length data) - 2)); [|discriminate].
    destruct (record data pos s) as [[e|pos'] s1] eqn:E; [discriminate|].
    apply record_advances in E as (len & Hl & ->).
    apply Hpos in Hl. apply IH; lia.
Qed.

Lemma update_ends (data : list Z) (s : state) :
  lengths_positive data ->
  (update (length data) data s).1 <> Unfinished.
Proof.
  intros Hpos. unfold update.
  pose proof (scan_ends data Hpos (length data) 0 (enter data s)) as H.
  destruct (scan (length data) data 0 (enter data s)) as [[pos|e|] s1];
    simpl in *.
  - destruct (negb _); discriminate.
  - discriminate.
  - exfalso. apply H; [lia | lia | reflexivity].
Qed.

(** The record of [zero_length_stream] leaves [pos] at 0, in every
    state. *)
Lemma record_zero_length (s : state) :
  exists s', record zero_length_stream 0 s = (inr 0, s').
Proof.
  unfold record, bind, lift, ret. simpl.
  change (unpack_B zero_length_stream 0) with (@inr exn Z 85).
  simpl.
  change (unpack_h zero_length_stream 1) with (@inr exn Z 0).
  change (getitem zero_length_stream 3) with (@inr exn Z 0).
  change (unpack_H zero_length_stream 4) with (@inr exn Z 0).
  change (getitem zero_length_stream 6) with (@inr exn Z 0).
  unfold dispatch. simpl.
  unfold bind, seen, emit, remember, ret.
  destruct (bool_decide _); simpl; eexists; reflexivity.
Qed.

Lemma scan_zero_length (fuel : nat) (s : state) :
  (scan fuel zero_length_stream 0 s).1 = Unfinished.
Proof.
  revert s. induction fuel as [|fuel IH]; intros s.
  - reflexivity.
  - simpl. destruct (record_zero_length s) as [s' ->]. apply IH.
Qed.

(** A record whose seven header bytes lie inside [data]: the five reads
    of the loop body go through. *)
Lemma unpack_offset_in (n : nat) (size o : Z) :
  0 <= o -> o + size <= Z.of_nat n ->
  unpack_offset n size o = Some (Z.to_nat o).
Proof.
  intros H0 H1. unfold unpack_offset.
  destruct (Z.ltb_spec o 0); [lia|].
  rewrite (proj2 (Z.leb_le 0 o)) by lia.
  rewrite (proj2 (Z.leb_le size _)) by lia.
  reflexivity.
Qed.

Lemma dispatch_unknown_returns (id len : Z) (payload : list Z) (s : state) :
  id <> ID_NEW_MVO_FEEDBACK -> id <> ID_IMU_ATTI ->
  exists s', dispatch id len payload s = (inr tt, s').
Proof.
  intros H1 H2. unfold dispatch.
  destruct (Z.eqb_spec id ID_NEW_MVO_FEEDBACK); [contradiction|].
  destruct (Z.eqb_spec id ID_IMU_ATTI); [contradiction|].
  unfold bind, seen, emit, remember, ret.
  destruct (bool_decide _); simpl; eexists; reflexivity.
Qed.

Lemma record_unknown_returns (data : list Z) (pos id len : Z) (s : state) :
  0 <= pos -> pos + 7 <= Z.of_nat (length data) ->
  unpack_B data pos = inr 85 ->
  unpack_h data (pos + 1) = inr len ->
  unpack_H data (pos + 4) = inr id ->
  id <> ID_NEW_MVO_FEEDBACK -> id <> ID_IMU_ATTI ->
  exists s', record data pos s = (inr (pos + len), s').
Proof.
  intros H0 H7 Hs Hl Hi N1 N2. unfold record.
  replace (pos + 0) with pos by lia.
  unfold bind, lift. rewrite Hs, Hl, Hi, !getitem_in by lia.
  change (negb (85 =? 85)) with false. cbv iota beta.
  match goal with
  | |- context [dispatch id len ?p ?st] =>
      destruct (dispatch_unknown_returns id len p st N1 N2) as [s' ->]
  end.
  exists s'. reflexivity.
Qed.

End ScanFacts.

(** ** LogData: the claims *)

Section LogDataClaims.

Import LogData.

(** C6: when the loop of [update] exits with the final position [pos],
    [update] raises the corrupted-data exception exactly when [pos] differs
    from [len(data) - 2], with that [pos] and [data[pos:]]; when [pos] is
    [len(data) - 2] it returns, in the state the loop left.  Nothing is
    checked about the two bytes that follow: the one-record stream of the
    last part is accepted with any two trailing bytes. *)
Theorem update_checks_final_position
    (fuel : nat) (data : list Z) (s s' : state) (pos : Z) :
  scan fuel data 0 (enter data s) = (Returned pos, s') ->
  ((exists p rest, (update fuel data s).1 = Raised (CorruptedData p rest))
     <-> pos <> Z.of_nat (length data) - 2)
  /\ (pos <> Z.of_nat (length data) - 2 ->
      update fuel data s
        = (Raised (CorruptedData pos (slice_from data pos)), s'))
  /\ (pos = Z.of_nat (length data) - 2 ->
      update fuel data s = (Returned tt, s'))
  /\ (forall c1 c2 : Z,
        (update 1 [85; 12; 0; 0; 7; 0; 0; 0; 0; 0; 0; 0; c1; c2]
                (State (fresh 0) world0)).1
          = Returned tt).
Proof.
  intros H. unfold update. rewrite H.
  destruct (Z.eqb_spec pos (Z.of_nat (length data) - 2)) as [E|N]; simpl.
  - repeat split.
    + intros (p & rest & Hr). discriminate.
    + intros Hne. contradiction.
    + intros Hne. contradiction.
  - repeat split.
    + intros _. exact N.
    + intros _. eexists _, _. reflexivity.
    + intros Heq. contradiction.
Qed.

Lemma update_checks_final_position_witness :
  (update 5 unknown_id_stream (State (fresh 0) world0)).1 = Returned tt
  /\ (update 5 [85; 13; 0; 0; 7; 0; 0; 0; 0; 0; 0; 0; 1; 2]
              (State (fresh 0) world0)).1
     = Raised (CorruptedData 13 [2]).
Proof.
  split.
  - edestruct (update_checks_final_position 5 unknown_id_stream
                 (State (fresh 0) world0)) as (_ & _ & Hret & _);
      [reflexivity|].
    rewrite Hret; reflexivity.
  - edestruct (update_checks_final_position 5
                 [85; 13; 0; 0; 7; 0; 0; 0; 0; 0; 0; 0; 1; 2]
                 (State (fresh 0) world0)) as (_ & Hraise & _);
      [reflexivity|].
    rewrite Hraise; [reflexivity | discriminate].
Defined.

(** A second way not to end: lengths 10 and -10 send the loop from 0 to
    10 and back. *)
Lemma scan_back_and_forth (fuel : nat) (s : state) :
  (scan fuel back_and_forth_stream 0 s).1 = Unfinished
  /\ (scan fuel back_and_forth_stream 10 s).1 = Unfinished.
Proof.
  revert s. induction fuel as [|fuel IH]; intros s.
  - split; reflexivity.
  - split; simpl.
    + destruct (record_unknown_returns back_and_forth_stream 0 7 10 s)
        as [s' ->]; try reflexivity; try discriminate.
      apply IH.
    + destruct (record_unknown_returns back_and_forth_stream 10 9 (-10) s)
        as [s' ->]; try reflexivity; try discriminate.
      apply IH.
Qed.

(** C7, at the input where the code departs from it: on the seven bytes
    55 00 00 00 00 00 00 (sync marker, length field 0, unknown id 0) every
    turn of the loop ends with [pos += 0]; whatever the number of turns
    allowed and whatever the state of the object, [update] is still in its
    loop, it neither returns nor raises. *)
Theorem update_never_ends_on_zero_length :
  forall (fuel : nat) (s : state),
    (update fuel zero_length_stream s).1 = Unfinished.
Proof.
  intros fuel s. unfold update.
  pose proof (scan_zero_length fuel (enter zero_length_stream s)) as H.
  destruct (scan fuel zero_length_stream 0 (enter zero_length_stream s))
    as [[pos|e|] s1]; simpl in H; try discriminate.
  reflexivity.
Qed.

(** C8: for an id that is neither 29 nor 2048, a record with that id whose
    seven header bytes lie inside the data is processed without an
    exception and moves the position by its length field; over any
    sequence of [update] calls on one object, however each call ends, the
    'UNHANDLED LOG DATA' line for the id is written at most once (the
    count of such lines grows by at most one over the whole sequence, from
    any state of the object and of the class); and a call made when the id
    is already in [unknowns] writes no such line and leaves the id
    there. *)
Theorem unknown_id_reported_at_most_once (id : Z) :
  id <> ID_NEW_MVO_FEEDBACK -> id <> ID_IMU_ATTI ->
  (forall (data : list Z) (pos len : Z) (s : state),
      0 <= pos -> pos + 7 <= Z.of_nat (length data) ->
      unpack_B data pos = inr 85 ->
      unpack_h data (pos + 1) = inr len ->
      unpack_H data (pos + 4) = inr id ->
      exists s', record data pos s = (inr (pos + len), s'))
  /\ (forall (o : t) (w : world) (calls : list (nat * list Z)),
        (reports id (output (cls (updates calls (State o w))))
         <= reports id (output w) + 1)%nat)
  /\ (forall (fuel : nat) (data : list Z) (s : state),
        id ∈ unknowns (cls s) ->
        id ∈ unknowns (cls (update fuel data s).2)
        /\ reports id (output (cls (update fuel data s).2))
           = reports id (output (cls s))).
Proof.
  intros N1 N2. split; [|split].
  - intros data pos len s H0 H7 Hs Hl Hi.
    eapply record_unknown_returns; eassumption.
  - intros o w calls.
    destruct (updates_keeps calls (State o w)) as (_ & _ & Hle & _).
    apply (Hle id).
  - intros fuel data s Hin.
    destruct (update_keeps fuel data s) as (Hmono & Hsame & _).
    split; [apply Hmono, Hin | apply Hsame, Hin].
Qed.

Lemma unknown_id_reported_at_most_once_witness :
  (exists s', record unknown_id_stream 0 (State (fresh 0) world0)
              = (inr 12, s'))
  /\ (reports 7
        (output (cls (updates [(5%nat, unknown_id_stream);
                               (5%nat, unknown_id_stream)]
                              (State (fresh 0) world0)))) <= 1)%nat.
Proof.
  destruct (unknown_id_reported_at_most_once 7) as (Hrec & Honce & _);
    [discriminate | discriminate |].
  split.
  - apply (Hrec unknown_id_stream 0 12 (State (fresh 0) world0));
      first [reflexivity | vm_compute; discriminate].
  - apply (Honce (fresh 0) world0).
Defined.

(** C10: [unknowns] belongs to the class.  Once a call of [update] by one
    object has written the line for an id, the id is in the list that all
    objects read, and no later call by any object, in any state and in any
    order, writes the line for that id again; neither does the
    construction of a new object with [data]. *)
Theorem unknowns_shared_by_all_objects
    (id : Z) (o1 : t) (w : world) (fuel1 : nat) (data1 : list Z) :
  reports id (output (cls (update fuel1 data1 (State o1 w)).2))
    <> reports id (output w) ->
  id ∈ unknowns (cls (update fuel1 data1 (State o1 w)).2)
  /\ (forall calls : list (t * nat * list Z),
        reports id
          (output (shared_calls calls
                     (cls (update fuel1 data1 (State o1 w)).2)))
        = reports id (output (cls (update fuel1 data1 (State o1 w)).2)))
  /\ (forall (calls : list (t * nat * list Z))
             (fuel : nat) (lg : nat) (data : option (list Z)),
        reports id
          (output (cls (init fuel lg data
                          (shared_calls calls
                             (cls (update fuel1 data1 (State o1 w)).2))).2))
        = reports id (output (cls (update fuel1 data1 (State o1 w)).2))).
Proof.
  intros Hrep.
  set (w1 := cls (update fuel1 data1 (State o1 w)).2) in *.
  assert (id ∈ unknowns w1) as Hin.
  { destruct (update_keeps fuel1 data1 (State o1 w)) as (_ & _ & _ & Hnew).
    apply Hnew, Hrep. }
  split; [exact Hin|].
  assert (forall calls,
             id ∈ unknowns (shared_calls calls w1)
             /\ reports id (output (shared_calls calls w1))
                = reports id (output w1)) as Hcalls.
  { intros calls.
    destruct (shared_calls_keeps calls w1) as (Hmono & Hsame & _).
    split; [apply Hmono, Hin | apply Hsame, Hin]. }
  split.
  - intros calls. apply Hcalls.
  - intros calls fuel lg data.
    destruct (Hcalls calls) as [Hin2 <-].
    unfold init.
    destruct data as [[|b d]|]; try reflexivity.
    destruct (update_keeps fuel (b :: d)
                (State (fresh lg) (shared_calls calls w1)))
      as (_ & Hsame & _).
    apply Hsame, Hin2.
Qed.

Lemma unknowns_shared_by_all_objects_witness :
  7 ∈ unknowns (cls (update 5 unknown_id_stream (State (fresh 0) world0)).2)
  /\ reports 7
       (output (shared_calls [(fresh 1, 5%nat, unknown_id_stream)]
                  (cls (update 5 unknown_id_stream
                          (State (fresh 0) world0)).2)))
     = 1%nat.
Proof.
  destruct (unknowns_shared_by_all_objects 7 (fresh 0) world0 5
              unknown_id_stream) as (Hin & Hcalls & _).
  - vm_compute. discriminate.
  - split; [exact Hin|]. rewrite Hcalls. reflexivity.
Defined.

End LogDataClaims.

(** * Further properties of the code *)

(** ** Packet: the constructor *)

Section PacketMore.

Import Packet.
Local Open Scope py_scope.

Lemma append_all_bytes (vs b : list Z) :
  forallb is_byte vs = true -> append_all vs b = (inr tt, b ++ vs).
Proof.
  revert b. induction vs as [|v vs IH]; intros b H; simpl in *.
  - rewrite app_nil_r. reflexivity.
  - apply andb_true_iff in H as [Hv Hvs].
    unfold bind, buf_append. rewrite Hv.
    rewrite IH by exact Hvs. rewrite <- app_assoc. reflexivity.
Qed.

Lemma append_all_not_bytes (vs b : list Z) :
  forallb is_byte vs = false -> exists b', append_all vs b = (inl ValueError, b').
Proof.
  revert b. induction vs as [|v vs IH]; intros b H; simpl in *.
  - discriminate.
  - unfold bind, buf_append.
    destruct (is_byte v) eqn:Hv; simpl in H.
    + apply IH. exact H.
    + eexists. reflexivity.
Qed.

(** [Packet(cmd)] with a string: the buffer holds the code points of the
    string when all of them are below 256, and the constructor raises
    ValueError as soon as one is not. *)
Theorem init_str_bytes_or_raises (codes : list Z) (pkt_type : Z) :
  init (CmdStr codes) pkt_type =
    if forallb is_byte codes then inr codes else inl ValueError.
Proof.
  unfold init. destruct (forallb is_byte codes) eqn:H.
  - rewrite append_all_bytes by exact H. reflexivity.
  - destruct (append_all_not_bytes codes [] H) as [b' ->]. reflexivity.
Qed.

Lemma low_bytes_mod (c : Z) :
  Z.land c 255 + 256 * Z.land (Z.shiftr c 8) 255 = c mod 65536.
Proof.
  change 255 with (Z.ones 8). rewrite !Z.land_ones by lia.
  rewrite Z.shiftr_div_pow2 by lia. change (2 ^ 8) with 256.
  change 65536 with (256 * 256). rewrite Z.rem_mul_r by lia. reflexivity.
Qed.

(** [Packet(cmd, pkt_type)] with an integer [cmd]: for a [pkt_type] in
    0..255 the buffer is the nine-byte header that starts with the sync
    marker, carries [pkt_type] at offset 4 and [cmd] modulo 65536 low byte
    first at offsets 5 and 6, with the length, crc8 and sequence bytes
    zero; any other [pkt_type] makes the constructor raise ValueError.  No
    [cmd] is refused. *)
Theorem init_int_header (cmd pkt_type : Z) :
  (is_byte pkt_type = false ->
   init (CmdInt cmd) pkt_type = inl ValueError)
  /\ (is_byte pkt_type = true ->
      exists lo hi,
        init (CmdInt cmd) pkt_type
          = inr [START_OF_PACKET; 0; 0; 0; pkt_type; lo; hi; 0; 0]
        /\ 0 <= lo < 256 /\ 0 <= hi < 256
        /\ lo + 256 * hi = cmd mod 65536).
Proof.
  rewrite init_int. split; intros ->; [reflexivity|].
  exists (Z.land cmd 255), (Z.land (Z.shiftr cmd 8) 255).
  split; [reflexivity|].
  split; [apply land_255_range|].
  split; [apply land_255_range|].
  apply low_bytes_mod.
Qed.

(** ** Packet: [get_data] *)

(** [get_data] never raises: it returns the bytes from offset 9 up to the
    last two, and the empty sequence for a buffer of eleven bytes or
    fewer. *)
Theorem get_data_bounds (b : list Z) :
  get_data b = take (length b - 11) (drop 9 b)
  /\ length (get_data b) = (length b - 11)%nat.
Proof.
  assert (get_data b = take (length b - 11) (drop 9 b)) as E.
  { unfold get_data, slice, clamp_bound.
    change (9 <? 0) with false. cbv iota.
    destruct (Z.ltb_spec (Z.of_nat (length b) - 2) 0) as [Hs|Hs].
    - replace (Z.to_nat (Z.min (Z.max (Z.of_nat (length b) - 2
                                       + Z.of_nat (length b)) 0)
                               (Z.of_nat (length b)))) with 0%nat by lia.
      replace (length b - 11)%nat with 0%nat by lia.
      rewrite !take_0. reflexivity.
    - destruct (decide (length b <= 9)%nat) as [Hle|Hgt].
      + rewrite !drop_ge by lia. rewrite !take_nil. reflexivity.
      + replace (Z.to_nat (Z.min (Z.max 9 0) (Z.of_nat (length b))))
          with 9%nat by lia.
        f_equal. lia. }
  split; [exact E|].
  rewrite E, length_take, length_drop. lia.
Qed.

End PacketMore.

(** ** Packet: more on [fixup] *)

Section FixupMore.

Import Packet.
Local Open Scope py_scope.

Variable crc8 : list Z -> Z.
Variable crc16 : list Z -> Z.

(** What a returning [fixup] tells about its argument. *)
Lemma fixup_returns_inv (seq_num : Z) (b b' : list Z) :
  b !! 0%nat = Some START_OF_PACKET ->
  fixup crc8 crc16 seq_num b = (inr tt, b') ->
  9 <= Z.of_nat (length b)
  /\ Z.land (Z.of_nat (length b) + 2) 255 < 32
  /\ b' = framed crc8 crc16 seq_num b.
Proof.
  intros H0 H.
  destruct (fixup_returns_framed _ _ _ _ _ H0 H) as [Hn Hb].
  repeat split; try assumption.
  rewrite fixup_long in H by assumption.
  destruct (is_byte (Z.shiftl _ 3)) eqn:E; [|discriminate].
  apply shifted_length_byte in E. exact E.
Qed.

Lemma framed_length (seq_num : Z) (b : list Z) :
  length (framed crc8 crc16 seq_num b) = (length b + 2)%nat.
Proof.
  unfold framed. rewrite length_app, with_header_length. reflexivity.
Qed.

Lemma framed_lookup_kept (seq_num : Z) (b : list Z) (i : nat) :
  (i < length b)%nat ->
  i <> 1%nat -> i <> 2%nat -> i <> 3%nat -> i <> 7%nat -> i <> 8%nat ->
  framed crc8 crc16 seq_num b !! i = b !! i.
Proof.
  intros Hi N1 N2 N3 N7 N8. unfold framed.
  rewrite lookup_app_l by (rewrite with_header_length; exact Hi).
  unfold with_header, with_shift, with_length.
  rewrite !list_lookup_insert_ne by congruence. reflexivity.
Qed.

(** The size ceiling of [fixup]: on a buffer of at least nine bytes that
    starts with the sync marker, [fixup] returns only if the low byte of
    [len(buf) + 2] is below 32, and with a [crc8] that returns bytes it
    does return then; from 32 on, [buf[1] << 3] does not fit a byte, the
    assignment raises ValueError, and the buffer is left with the two
    length bytes written, unshifted, and nothing appended. *)
Theorem fixup_size_ceiling (seq_num : Z) (b : list Z) :
  (forall l, is_byte (crc8 l) = true) ->
  b !! 0%nat = Some START_OF_PACKET ->
  9 <= Z.of_nat (length b) ->
  ((fixup crc8 crc16 seq_num b).1 = inr tt
     <-> Z.land (Z.of_nat (length b) + 2) 255 < 32)
  /\ (32 <= Z.land (Z.of_nat (length b) + 2) 255 ->
      fixup crc8 crc16 seq_num b = (inl ValueError, with_length b)
      /\ with_length b !! 1%nat = Some (Z.land (Z.of_nat (length b) + 2) 255)
      /\ length (with_length b) = length b).
Proof.
  intros Hc H0 Hn. split; [split|].
  - intros Hr.
    destruct (fixup crc8 crc16 seq_num b) as [[e|[]] b'] eqn:E;
      [discriminate|].
    apply (fixup_returns_inv _ _ _ H0 E).
  - intros Hlo. rewrite (fixup_returns crc8 crc16 Hc) by assumption.
    reflexivity.
  - intros Hhi. split; [apply fixup_raises_on_overflow; assumption|].
    split; [|apply with_length_length].
    unfold with_length. rewrite list_lookup_insert_ne by lia.
    apply list_lookup_insert_eq. lia.
Qed.

(** The length field that [fixup] leaves: the buffer grows by the two
    crc16 bytes, and bytes 1 and 2, read low byte first, hold eight times
    the length of the framed packet exactly when that length is below 32;
    for longer packets on which [fixup] still returns (256 bytes and more)
    the carry of the shift is lost and the field is smaller. *)
Theorem fixup_length_field (seq_num : Z) (b b' : list Z) :
  b !! 0%nat = Some START_OF_PACKET ->
  fixup crc8 crc16 seq_num b = (inr tt, b') ->
  length b' = (length b + 2)%nat
  /\ exists lo hi,
       b' !! 1%nat = Some lo /\ b' !! 2%nat = Some hi
       /\ lo + 256 * hi <= 8 * Z.of_nat (length b')
       /\ (lo + 256 * hi = 8 * Z.of_nat (length b')
           <-> Z.of_nat (length b') < 32).
Proof.
  intros H0 H.
  destruct (fixup_returns_inv _ _ _ H0 H) as (Hn & Hlo & ->).
  rewrite framed_length. split; [reflexivity|].
  exists (Z.shiftl (le16 (Z.of_nat (length b) + 2)).1 3),
         (le16 (Z.of_nat (length b) + 2)).2.
  assert (framed crc8 crc16 seq_num b !! 1%nat
          = Some (Z.shiftl (le16 (Z.of_nat (length b) + 2)).1 3)) as E1.
  { unfold framed.
    rewrite lookup_app_l by (rewrite with_header_length; lia).
    unfold with_header. rewrite !list_lookup_insert_ne by lia.
    unfold with_shift. apply list_lookup_insert_eq.
    rewrite with_length_length. lia. }
  assert (framed crc8 crc16 seq_num b !! 2%nat
          = Some (le16 (Z.of_nat (length b) + 2)).2) as E2.
  { unfold framed.
    rewrite lookup_app_l by (rewrite with_header_length; lia).
    unfold with_header, with_shift.
    rewrite !list_lookup_insert_ne by lia.
    unfold with_length. apply list_lookup_insert_eq.
    rewrite length_insert. lia. }
  split; [exact E1|]. split; [exact E2|].
  unfold le16. simpl fst. simpl snd.
  rewrite Z.shiftl_mul_pow2 by lia. change (2 ^ 3) with 8.
  revert Hlo. change 255 with (Z.ones 8). rewrite !Z.land_ones by lia.
  rewrite Z.shiftr_div_pow2 by lia. change (2 ^ 8) with 256.
  intros Hlo.
  replace (Z.of_nat (length b + 2)) with (Z.of_nat (length b) + 2) by lia.
  set (T := Z.of_nat (length b) + 2) in *.
  assert (0 <= T) as HT by lia.
  pose proof (Z.div_mod T 256 ltac:(lia)) as Hdm.
  pose proof (Z.mod_pos_bound T 256 ltac:(lia)) as Hl.
  pose proof (Z.div_pos T 256 HT ltac:(lia)) as Hq.
  pose proof (Z.mod_pos_bound (T / 256) 256 ltac:(lia)) as Hh.
  pose proof (Z.mod_le (T / 256) 256 Hq ltac:(lia)) as Hhq.
  split; [lia|]. split; intros Hx.
  - assert (T / 256 = 0) as Hz by lia. lia.
  - assert (T / 256 = 0) as Hz by (apply Z.div_small; lia).
    rewrite Hz in *. rewrite Z.mod_0_l by lia. lia.
Qed.

Lemma framed_payload (seq_num : Z) (b : list Z) :
  9 <= Z.of_nat (length b) ->
  drop 9 (framed crc8 crc16 seq_num b)
    = drop 9 b ++ drop (length b) (framed crc8 crc16 seq_num b)
  /\ length (drop (length b) (framed crc8 crc16 seq_num b)) = 2%nat.
Proof.
  intros Hn. split.
  - unfold framed.
    rewrite drop_app_le by (rewrite with_header_length; lia).
    rewrite drop_app_length' by (rewrite with_header_length; reflexivity).
    f_equal. unfold with_header, with_shift, with_length.
    rewrite !drop_insert_lt by lia. reflexivity.
  - rewrite length_drop, framed_length. lia.
Qed.

(** What [fixup] never alters: the sync marker, the packet type, the
    command id and every payload byte; it only writes offsets 1, 2, 3, 7
    and 8 and appends. *)
Theorem fixup_keeps_type_command_payload (seq_num : Z) (b b' : list Z) :
  b !! 0%nat = Some START_OF_PACKET ->
  fixup crc8 crc16 seq_num b = (inr tt, b') ->
  b' !! 0%nat = Some START_OF_PACKET
  /\ b' !! 4%nat = b !! 4%nat
  /\ b' !! 5%nat = b !! 5%nat
  /\ b' !! 6%nat = b !! 6%nat
  /\ drop 9 b' = drop 9 b ++ drop (length b) b'
  /\ length (drop (length b) b') = 2%nat.
Proof.
  intros H0 H.
  destruct (fixup_returns_inv _ _ _ H0 H) as (Hn & Hlo & ->).
  rewrite <- H0.
  destruct (framed_payload seq_num b Hn) as [D L].
  repeat split; try (apply framed_lookup_kept; lia); assumption.
Qed.

(** [fixup] is not idempotent: a second call frames the framed packet, so
    that [get_data] then returns the payload followed by the two crc16
    bytes of the first call. *)
Theorem fixup_twice_extends_payload (seq1 seq2 : Z) (b b1 b2 : list Z) :
  b !! 0%nat = Some START_OF_PACKET ->
  fixup crc8 crc16 seq1 b = (inr tt, b1) ->
  fixup crc8 crc16 seq2 b1 = (inr tt, b2) ->
  get_data b1 = drop 9 b
  /\ get_data b2 = drop 9 b ++ drop (length b) b1
  /\ length (get_data b2) = (length (get_data b1) + 2)%nat.
Proof.
  intros H0 H1 H2.
  destruct (fixup_returns_inv _ _ _ H0 H1) as (Hn & _ & E1).
  assert (b1 !! 0%nat = Some START_OF_PACKET) as S1.
  { rewrite E1, <- H0. apply framed_lookup_kept; lia. }
  destruct (fixup_returns_inv _ _ _ S1 H2) as (Hn1 & _ & E2).
  destruct (framed_payload seq1 b Hn) as [D1 L1]. rewrite <- E1 in D1, L1.
  assert (get_data b1 = drop 9 b) as G1.
  { rewrite E1. apply get_data_framed. exact Hn. }
  assert (get_data b2 = drop 9 b ++ drop (length b) b1) as G2.
  { rewrite E2, get_data_framed by exact Hn1. exact D1. }
  split; [exact G1|]. split; [exact G2|].
  rewrite G2, G1, length_app, L1. reflexivity.
Qed.

End FixupMore.

Section FixupMoreWitnesses.

Import Packet.

Lemma command_payload_round_trip_witness :
  Build.command_payload Sample.crc8 Sample.crc16 STICK_CMD 104
      [Build.AddByte 300; Build.AddInt16 513] 7
    = inr [44; 1; 2].
Proof.
  apply (command_payload_round_trip Sample.crc8 Sample.crc16
           sample_crc8_byte STICK_CMD 104
           [Build.AddByte 300; Build.AddInt16 513] 7).
  - reflexivity.
  - vm_compute. reflexivity.
Defined.

Lemma fixup_size_ceiling_witness :
  ((fixup Sample.crc8 Sample.crc16 0
      ([204; 0; 0; 0; 104; 80; 0; 0; 0] ++ replicate 20 1)).1 = inr tt
   <-> Z.land (Z.of_nat 29 + 2) 255 < 32)
  /\ (32 <= Z.land (Z.of_nat 29 + 2) 255 ->
      fixup Sample.crc8 Sample.crc16 0
        ([204; 0; 0; 0; 104; 80; 0; 0; 0] ++ replicate 20 1)
      = (inl ValueError,
         with_length ([204; 0; 0; 0; 104; 80; 0; 0; 0] ++ replicate 20 1))
      /\ with_length ([204; 0; 0; 0; 104; 80; 0; 0; 0] ++ replicate 20 1)
           !! 1%nat
         = Some (Z.land (Z.of_nat 29 + 2) 255)
      /\ length (with_length
                   ([204; 0; 0; 0; 104; 80; 0; 0; 0] ++ replicate 20 1))
         = 29%nat).
Proof.
  apply (fixup_size_ceiling Sample.crc8 Sample.crc16 0
           ([204; 0; 0; 0; 104; 80; 0; 0; 0] ++ replicate 20 1)
           sample_crc8_byte).
  - reflexivity.
  - vm_compute. discriminate.
Defined.

Lemma fixup_length_field_witness :
  length [204; 88; 0; 155; 104; 80; 0; 5; 0; 14; 57] = 11%nat
  /\ exists lo hi,
       [204; 88; 0; 155; 104; 80; 0; 5; 0; 14; 57] !! 1%nat = Some lo
       /\ [204; 88; 0; 155; 104; 80; 0; 5; 0; 14; 57] !! 2%nat = Some hi
       /\ lo + 256 * hi
          <= 8 * Z.of_nat
                   (length [204; 88; 0; 155; 104; 80; 0; 5; 0; 14; 57])
       /\ (lo + 256 * hi
           = 8 * Z.of_nat
                   (length [204; 88; 0; 155; 104; 80; 0; 5; 0; 14; 57])
           <-> Z.of_nat
                 (length [204; 88; 0; 155; 104; 80; 0; 5; 0; 14; 57]) < 32).
Proof.
  apply (fixup_length_field Sample.crc8 Sample.crc16 5
           [204; 0; 0; 0; 104; 80; 0; 0; 0]).
  - reflexivity.
  - vm_compute. reflexivity.
Defined.

Lemma fixup_keeps_type_command_payload_witness :
  [204; 104; 0; 171; 104; 80; 0; 5; 0; 9; 8; 63; 57] !! 0%nat
    = Some START_OF_PACKET
  /\ [204; 104; 0; 171; 104; 80; 0; 5; 0; 9; 8; 63; 57] !! 4%nat
     = [204; 0; 0; 0; 104; 80; 0; 0; 0; 9; 8] !! 4%nat
  /\ [204; 104; 0; 171; 104; 80; 0; 5; 0; 9; 8; 63; 57] !! 5%nat
     = [204; 0; 0; 0; 104; 80; 0; 0; 0; 9; 8] !! 5%nat
  /\ [204; 104; 0; 171; 104; 80; 0; 5; 0; 9; 8; 63; 57] !! 6%nat
     = [204; 0; 0; 0; 104; 80; 0; 0; 0; 9; 8] !! 6%nat
  /\ drop 9 [204; 104; 0; 171; 104; 80; 0; 5; 0; 9; 8; 63; 57]
     = drop 9 [204; 0; 0; 0; 104; 80; 0; 0; 0; 9; 8]
       ++ drop (length [204; 0; 0; 0; 104; 80; 0; 0; 0; 9; 8])
            [204; 104; 0; 171; 104; 80; 0; 5; 0; 9; 8; 63; 57]
  /\ length (drop (length [204; 0; 0; 0; 104; 80; 0; 0; 0; 9; 8])
               [204; 104; 0; 171; 104; 80; 0; 5; 0; 9; 8; 63; 57])
     = 2%nat.
Proof.
  apply (fixup_keeps_type_command_payload Sample.crc8 Sample.crc16 5
           [204; 0; 0; 0; 104; 80; 0; 0; 0; 9; 8]).
  - reflexivity.
  - vm_compute. reflexivity.
Defined.

End FixupMoreWitnesses.

Section FixupTwiceWitness.

Import Packet.

Lemma fixup_twice_extends_payload_witness :
  get_data [204; 104; 0; 171; 104; 80; 0; 5; 0; 9; 8; 63; 57] = [9; 8]
  /\ get_data [204; 120; 0; 187; 104; 80; 0; 6; 0; 9; 8; 63; 57; 216; 57]
     = [9; 8] ++ [63; 57]
  /\ length
       (get_data [204; 120; 0; 187; 104; 80; 0; 6; 0; 9; 8; 63; 57; 216; 57])
     = Nat.add
         (length (get_data [204; 104; 0; 171; 104; 80; 0; 5; 0; 9; 8; 63; 57]))
         2.
Proof.
  apply (fixup_twice_extends_payload Sample.crc8 Sample.crc16 5 6
           [204; 0; 0; 0; 104; 80; 0; 0; 0; 9; 8]).
  - reflexivity.
  - vm_compute. reflexivity.
  - vm_compute. reflexivity.
Defined.

End FixupTwiceWitness.

(** ** Packet: [get_time] and the time command *)

Section TimeMore.

Import Packet.
Local Open Scope py_scope.

Lemma bind_inr {S A B} (m : M S A) (k : A -> M S B) (s s' : S) (a : A) :
  m s = (inr a, s') -> bind m k s = k a s'.
Proof. intros H. unfold bind. rewrite H. reflexivity. Qed.

(** On a buffer of nine items or more [get_time] reads offsets 0 to 6 and
    offset 8, and raises only if [datetime.datetime] does. *)
Lemma get_time_long (now : datetime) (buf self : list Z) :
  (9 <= length buf)%nat ->
  get_time now (Some buf) self =
    (datetime_new (dt_year now) (dt_month now) (dt_day now)
       (int16 (byte_at buf 0) (byte_at buf 1))
       (int16 (byte_at buf 2) (byte_at buf 3))
       (int16 (byte_at buf 4) (byte_at buf 5))
       (int16 (byte_at buf 6) (byte_at buf 8)),
     self).
Proof.
  intros Hn. unfold get_time, bind, ret, lift, int16_at.
  rewrite !getitem_in by lia. to_nat_lit. reflexivity.
Qed.

(** What [get_time] makes of the ten bytes of [add_time]: each of the four
    values goes through [int16] as its low and its high byte; the two bytes
    of the millisecond value are taken from offsets 6 and 8, which is where
    [add_time] puts them. *)
Lemma get_time_of_add_time (now : datetime) (t : time) (self : list Z) :
  get_time now (Some (add_time t []).2) self
    = (datetime_new (dt_year now) (dt_month now) (dt_day now)
         (int16 (Z.land (hour t) 255) (Z.land (Z.shiftr (hour t) 8) 255))
         (int16 (Z.land (minute t) 255) (Z.land (Z.shiftr (minute t) 8) 255))
         (int16 (Z.land (second t) 255) (Z.land (Z.shiftr (second t) 8) 255))
         (int16 (Z.land (millisecond t) 255)
                (Z.land (Z.shiftr (millisecond t) 8) 255)),
       self).
Proof.
  rewrite add_time_appends. cbn [snd app].
  rewrite get_time_long by (simpl length; lia).
  reflexivity.
Qed.

(** [get_time] on an explicit buffer shorter than nine items raises
    IndexError, whatever the items are, and leaves the packet alone. *)
Theorem get_time_short_buffer_raises (now : datetime) (buf self : list Z) :
  (length buf < 9)%nat ->
  get_time now (Some buf) self = (inl IndexError, self).
Proof.
  intros Hn.
  do 9 (destruct buf as [|? buf]; [vm_compute; reflexivity|]).
  simpl in Hn. lia.
Qed.

Lemma get_time_short_buffer_raises_witness :
  get_time Sample.now (Some [13; 0; 45; 0; 59; 0; 231; 0]) [] 
    = (inl IndexError, []).
Proof.
  apply (get_time_short_buffer_raises Sample.now
           [13; 0; 45; 0; 59; 0; 231; 0] []).
  simpl. lia.
Defined.

(** [get_time] never looks at offset 7 nor past offset 8: changing the
    item at offset 7 and dropping or adding items after offset 8 does not
    change its result. *)
Theorem get_time_ignores_offset_7_and_tail
    (now : datetime) (b0 b1 b2 b3 b4 b5 b6 b7 b8 x : Z)
    (rest self : list Z) :
  get_time now (Some ([b0; b1; b2; b3; b4; b5; b6; b7; b8] ++ rest)) self
    = get_time now (Some [b0; b1; b2; b3; b4; b5; b6; x; b8]) self.
Proof.
  rewrite !get_time_long by (rewrite ?length_app; simpl; lia).
  reflexivity.
Qed.

Variable crc8 : list Z -> Z.
Variable crc16 : list Z -> Z.
Hypothesis crc8_byte : forall l, is_byte (crc8 l) = true.

(** The time command end to end, for a time in the first 256 milliseconds
    of its second: a packet built with an integer command, one byte,
    [add_time(t)] and [fixup] is 22 bytes long, and [get_time()] without
    argument on it, which skips the nine header bytes and the first payload
    byte, returns today's date with the hour, minute and second of [t] and
    with the millisecond value of [t] in the microsecond field.  In that
    range the second byte of each of the four values is 0, which is where
    the result of [int16] does not depend on how it treats that byte. *)
Theorem time_command_round_trip
    (now : datetime) (cmd pkt_type v seq_num h m s us : Z) :
  is_byte pkt_type = true ->
  0 <= h < 24 -> 0 <= m < 60 -> 0 <= s < 60 -> 0 <= us < 256000 ->
  exists b,
    TimeCommand.send_and_read crc8 crc16 now cmd pkt_type v
        (Time h m s us) seq_num
      = (inr (Datetime (dt_year now) (dt_month now) (dt_day now)
                       h m s (us / 1000)), b)
    /\ length b = 22%nat.
Proof.
  intros Ht Hh Hm Hs Hus.
  assert (0 <= us / 1000 < 256) as Hms.
  { split; [apply Z.div_pos; lia | apply Z.div_lt_upper_bound; lia]. }
  unfold TimeCommand.send_and_read. rewrite init_int, Ht.
  erewrite bind_inr by apply add_byte_appends.
  erewrite bind_inr by apply add_time_appends.
  erewrite bind_inr
    by (apply (fixup_returns crc8 crc16 crc8_byte);
        [reflexivity | simpl; lia | vm_compute; reflexivity]).
  eexists. split.
  - change (get_time now None ?b)
      with (get_time now (Some (slice_from (get_data b) 1)) b).
    rewrite get_data_framed by (simpl; lia).
    unfold millisecond. simpl.
    rewrite get_time_long by (simpl; lia).
    unfold byte_at. simpl.
    rewrite !high_byte_small by lia.
    rewrite !low_byte_small by lia.
    rewrite !int16_high_zero by lia.
    rewrite datetime_new_valid by lia.
    reflexivity.
  - rewrite framed_length. reflexivity.
Qed.

End TimeMore.

Lemma time_command_round_trip_witness :
  exists b,
    TimeCommand.send_and_read Sample.crc8 Sample.crc16 Sample.now
        TIME_CMD 80 0 (Packet.Time 13 45 59 255999) 3
      = (inr (Packet.Datetime 2024 5 17 13 45 59 (255999 / 1000)), b)
    /\ length b = 22%nat.
Proof.
  apply (time_command_round_trip Sample.crc8 Sample.crc16 sample_crc8_byte
           Sample.now TIME_CMD 80 0 3 13 45 59 255999);
    first [reflexivity | lia].
Defined.

(** ** FlightData: what the decoder reads and what it produces *)

Section FlightDataMore.

Import FlightData.

Lemma land_1_bit (x : Z) : Z.land x 1 = 0 \/ Z.land x 1 = 1.
Proof.
  change 1 with (Z.ones 1) at 1 2. rewrite Z.land_ones by lia.
  pose proof (Z.mod_pos_bound x (2 ^ 1) ltac:(lia)).
  change (2 ^ 1) with 2 in *. lia.
Qed.

Lemma init_long (data : list Z) :
  (24 <= length data)%nat ->
  (Z.of_nat (length data) <? 24) = false.
Proof. intros H. apply Z.ltb_ge. lia. Qed.

(** Every flag of the record is 0 or 1, whatever the input: the nineteen
    attributes decoded with [(data[i] >> k) & 0x1]. *)
Theorem flags_are_bits (data : list Z) :
  Forall (fun v => v = 0 \/ v = 1)
    [imu_state (init data); pressure_state (init data);
     down_visual_state (init data); power_state (init data);
     battery_state (init data); gravity_state (init data);
     wind_state (init data);
     em_sky (init data); em_ground (init data); em_open (init data);
     drone_hover (init data); outage_recording (init data);
     battery_low (init data); battery_lower (init data);
     factory_mode (init data);
     front_in (init data); front_out (init data); front_lsc (init data);
     temperature_height (init data)].
Proof.
  unfold init. destruct (Z.of_nat (length data) <? 24); simpl.
  - repeat constructor.
  - unfold bit. repeat (constructor; [apply land_1_bit|]). constructor.
Qed.

(** Five attributes are set to 0 and never decoded: [fly_speed],
    [light_strength], [smart_video_exit_mode], [wifi_disturb] and
    [wifi_strength] are 0 for every input. *)
Theorem undecoded_fields_stay_zero (data : list Z) :
  fly_speed (init data) = 0
  /\ light_strength (init data) = 0
  /\ smart_video_exit_mode (init data) = 0
  /\ wifi_disturb (init data) = 0
  /\ wifi_strength (init data) = 0.
Proof.
  unfold init. destruct (Z.of_nat (length data) <? 24); simpl; tauto.
Qed.

Lemma masked_bit (x y mask k : Z) :
  0 <= k -> Z.testbit mask k = true ->
  Z.land x mask = Z.land y mask ->
  Z.land (Z.shiftr x k) 1 = Z.land (Z.shiftr y k) 1.
Proof.
  intros Hk Hm H.
  assert (Z.testbit x k = Z.testbit y k) as E.
  { apply (f_equal (fun z => Z.testbit z k)) in H.
    rewrite !Z.land_spec, Hm, !andb_true_r in H. exact H. }
  change 1 with (Z.ones 1). rewrite !Z.land_ones by lia.
  change (2 ^ 1) with 2. rewrite <- !Z.bit0_mod.
  rewrite !Z.shiftr_spec by lia. rewrite !Z.add_0_l, E. reflexivity.
Qed.

(** What the decoder reads of a payload of 24 bytes or more: the bytes at
    offsets 0 to 9, 11 to 21, bits 0-5 and 7 of byte 10, bits 0-2 of byte 22
    and bit 0 of byte 23.  Two payloads that agree there decode to the same
    record: bit 6 of byte 10, the upper bits of bytes 22 and 23 and
    everything from offset 24 on are ignored. *)
Theorem decoder_reads_only_its_table (d d' : list Z) :
  (24 <= length d)%nat -> (24 <= length d')%nat ->
  (forall i, (i < 22)%nat -> i <> 10%nat -> byte_at d i = byte_at d' i) ->
  Z.land (byte_at d 10) 191 = Z.land (byte_at d' 10) 191 ->
  Z.land (byte_at d 22) 7 = Z.land (byte_at d' 22) 7 ->
  Z.land (byte_at d 23) 1 = Z.land (byte_at d' 23) 1 ->
  init d = init d'.
Proof.
  intros L L' Hsame H10 H22 H23.
  unfold init. rewrite !init_long by assumption. unfold bit.
  rewrite (masked_bit _ _ 191 0 ltac:(lia) eq_refl H10).
  rewrite (masked_bit _ _ 191 1 ltac:(lia) eq_refl H10).
  rewrite (masked_bit _ _ 191 2 ltac:(lia) eq_refl H10).
  rewrite (masked_bit _ _ 191 3 ltac:(lia) eq_refl H10).
  rewrite (masked_bit _ _ 191 4 ltac:(lia) eq_refl H10).
  rewrite (masked_bit _ _ 191 5 ltac:(lia) eq_refl H10).
  rewrite (masked_bit _ _ 191 7 ltac:(lia) eq_refl H10).
  rewrite (masked_bit _ _ 7 0 ltac:(lia) eq_refl H22).
  rewrite (masked_bit _ _ 7 1 ltac:(lia) eq_refl H22).
  rewrite (masked_bit _ _ 7 2 ltac:(lia) eq_refl H22).
  rewrite (masked_bit _ _ 1 0 ltac:(lia) eq_refl H23).
  rewrite !(Hsame 0%nat), !(Hsame 1%nat), !(Hsame 2%nat), !(Hsame 3%nat),
    !(Hsame 4%nat), !(Hsame 5%nat), !(Hsame 6%nat), !(Hsame 7%nat),
    !(Hsame 8%nat), !(Hsame 9%nat), !(Hsame 11%nat), !(Hsame 12%nat),
    !(Hsame 13%nat), !(Hsame 14%nat), !(Hsame 15%nat), !(Hsame 16%nat),
    !(Hsame 17%nat), !(Hsame 18%nat), !(Hsame 19%nat), !(Hsame 20%nat),
    !(Hsame 21%nat) by lia.
  reflexivity.
Qed.

Lemma decoder_reads_only_its_table_witness :
  init example_payload
    = init [10; 0; 5; 0; 0; 0; 0; 0; 100; 0; 81; 5; 50; 0; 0; 0; 0; 5; 2; 3;
            7; 1; 251; 255; 9; 9; 9].
Proof.
  apply decoder_reads_only_its_table;
    try (simpl; lia); try reflexivity.
  intros i Hi Hne.
  do 22 (destruct i as [|i]; [first [reflexivity | contradiction]|]).
  lia.
Defined.

End FlightDataMore.

(** ** LogData: what a call changes *)

Section Frames.

Import LogData.
Local Open Scope py_scope.

(** A relation between the state before and after, kept by every step
    that writes a line, assigns to a sub-decoder or reports an id. *)
Variable R : state -> state -> Prop.
Hypothesis R_refl : forall s, R s s.
Hypothesis R_trans : forall s1 s2 s3, R s1 s2 -> R s2 s3 -> R s1 s3.
Hypothesis R_line :
  forall m, (forall id, is_report id (0%nat, m) = false) ->
            forall s, R s (emit m s).2.
Hypothesis R_set_mvo : forall f s, R s (set_mvo f s).2.
Hypothesis R_set_imu : forall f s, R s (set_imu f s).2.
Hypothesis R_report :
  forall id len s,
    id ∉ unknowns (cls s) ->
    id <> ID_NEW_MVO_FEEDBACK -> id <> ID_IMU_ATTI ->
    R s (remember id (emit (InfoUnhandled id len) s).2).2.

Lemma frame_bind {A B} (m : M state A) (k : A -> M state B) :
  (forall s, R s (m s).2) -> (forall a s, R s (k a s).2) ->
  forall s, R s (bind m k s).2.
Proof.
  intros Hm Hk s. unfold bind. specialize (Hm s).
  destruct (m s) as [[e|a] s1]; simpl in *; [exact Hm|].
  eapply R_trans; [exact Hm | apply Hk].
Qed.

Lemma frame_mvo_update data cnt s : R s (mvo_update data cnt s).2.
Proof.
  revert s. unfold mvo_update.
  apply frame_bind; [apply R_line; intros ?; reflexivity | intros _].
  apply frame_bind; [apply R_set_mvo | intros _].
  apply frame_bind; [intros s; apply R_refl | intros v].
  apply frame_bind; [apply R_set_mvo | intros _].
  apply frame_bind; [intros s; apply R_refl | intros p].
  apply frame_bind; [apply R_set_mvo | intros _].
  apply R_line; intros ?; reflexivity.
Qed.

Lemma frame_imu_update data cnt s : R s (imu_update data cnt s).2.
Proof.
  revert s. unfold imu_update.
  apply frame_bind; [apply R_line; intros ?; reflexivity | intros _].
  apply frame_bind; [apply R_set_imu | intros _].
  apply frame_bind; [intros s; apply R_refl | intros a].
  apply frame_bind; [apply R_set_imu | intros _].
  apply frame_bind; [intros s; apply R_refl | intros g].
  apply frame_bind; [apply R_set_imu | intros _].
  apply frame_bind; [intros s; apply R_refl | intros q].
  apply frame_bind; [apply R_set_imu | intros _].
  apply frame_bind; [intros s; apply R_refl | intros v].
  apply frame_bind; [apply R_set_imu | intros _].
  apply R_line; intros ?; reflexivity.
Qed.

Lemma frame_dispatch id len payload s : R s (dispatch id len payload s).2.
Proof.
  unfold dispatch.
  destruct (Z.eqb_spec id ID_NEW_MVO_FEEDBACK) as [|N1].
  { unfold bind, get_count. simpl. apply frame_mvo_update. }
  destruct (Z.eqb_spec id ID_IMU_ATTI) as [|N2].
  { unfold bind, get_count. simpl. apply frame_imu_update. }
  unfold bind at 1. unfold seen. simpl.
  destruct (bool_decide_reflect (id ∈ unknowns (cls s))) as [Hin|Hnew].
  - apply R_refl.
  - unfold bind. simpl. apply (R_report id (len - 12) s); assumption.
Qed.

Lemma frame_record data pos s : R s (record data pos s).2.
Proof.
  revert s. unfold record.
  apply frame_bind; [intros s; apply R_refl | intros sync].
  destruct (negb _); [intros s; apply R_refl|].
  apply frame_bind; [intros s; apply R_refl | intros len].
  apply frame_bind; [intros s; apply R_refl | intros checksum].
  apply frame_bind; [intros s; apply R_refl | intros id].
  apply frame_bind; [intros s; apply R_refl | intros xorval].
  apply frame_bind; [intros s; apply frame_dispatch | intros _].
  intros s; apply R_refl.
Qed.

Lemma frame_scan fuel data pos s : R s (scan fuel data pos s).2.
Proof.
  revert pos s. induction fuel as [|fuel IH]; intros pos s; simpl.
  - destruct (pos <? _); apply R_refl.
  - destruct (pos <? _); [|apply R_refl].
    pose proof (frame_record data pos s) as Hr.
    destruct (record data pos s) as [[e|pos'] s1]; simpl in *; [exact Hr|].
    eapply R_trans; [exact Hr | apply IH].
Qed.

End Frames.

Section LogDataInvariants.

Import LogData.
Local Open Scope py_scope.

Lemma scan_same_counter fuel data pos s :
  same_counter s (scan fuel data pos s).2.
Proof.
  apply frame_scan; clear; unfold same_counter.
  - intros s. split; reflexivity.
  - intros s1 s2 s3 [A1 B1] [A2 B2]. split; congruence.
  - intros m _ s. split; reflexivity.
  - intros f s. split; reflexivity.
  - intros f s. split; reflexivity.
  - intros id len s _ _ _. split; reflexivity.
Qed.

Lemma update_counter fuel data s :
  log (self (update fuel data s).2) = log (self s)
  /\ count (self (update fuel data s).2) = count (self s) + 1.
Proof.
  rewrite update_state.
  destruct (scan_same_counter fuel data 0 (enter data s)) as [A B].
  rewrite A, B. split; reflexivity.
Qed.

(** [count] counts the calls of [update]: every call adds one, whether it
    returns, raises or is still running, and no call changes the logger of
    the object. *)
Theorem count_counts_the_calls (calls : list (nat * list Z)) (s : state) :
  count (self (updates calls s)) = count (self s) + Z.of_nat (length calls)
  /\ log (self (updates calls s)) = log (self s).
Proof.
  revert s. induction calls as [|[fuel data] calls IH]; intros s; simpl.
  - split; [lia | reflexivity].
  - destruct (IH (update fuel data s).2) as [C L].
    destruct (update_counter fuel data s) as [L1 C1].
    rewrite C, L, C1, L1. split; [lia | reflexivity].
Qed.

Lemma scan_world_steps fuel data pos s :
  rtc world_step (cls s) (cls (scan fuel data pos s).2).
Proof.
  apply (frame_scan (fun s s' => rtc world_step (cls s) (cls s'))); clear.
  - intros s. apply rtc_refl.
  - intros s1 s2 s3 H1 H2. eapply rtc_trans; eassumption.
  - intros m Hm s. apply rtc_once. unfold emit. simpl.
    apply step_line. intros id. apply (Hm id).
  - intros f s. apply rtc_refl.
  - intros f s. apply rtc_refl.
  - intros id len s Hnew N1 N2. apply rtc_once.
    unfold remember, emit. simpl. apply step_report; assumption.
Qed.

Lemma update_world_steps fuel data s :
  rtc world_step (cls s) (cls (update fuel data s).2).
Proof.
  rewrite update_state.
  eapply rtc_l; [|apply scan_world_steps].
  unfold enter. simpl. apply step_line. intros id. reflexivity.
Qed.

Lemma shared_calls_world_steps calls w :
  rtc world_step w (shared_calls calls w).
Proof.
  revert w. induction calls as [|[[o fuel] data] calls IH]; intros w; simpl.
  - apply rtc_refl.
  - eapply rtc_trans; [|apply IH].
    apply (update_world_steps fuel data (State o w)).
Qed.

Lemma step_reported_once w w' :
  world_step w w' -> reported_once w -> reported_once w'.
Proof.
  intros Hs (Hnd & Hin & Hout). destruct Hs as [w lg m Hq|w lg id len Hnew _ _].
  - assert (forall i, reports i (output w ++ [(lg, m)]) = reports i (output w))
      as E.
    { intros i. rewrite reports_app. unfold reports at 2. simpl.
      rewrite Hq. simpl. lia. }
    unfold reported_once. simpl. repeat split.
    + exact Hnd.
    + intros i Hi. rewrite E. apply Hin, Hi.
    + intros i Hi. rewrite E. apply Hout, Hi.
  - assert (forall i, reports i (output w ++ [(lg, InfoUnhandled id len)])
                      = (reports i (output w)
                         + (if (id =? i)%Z then 1 else 0))%nat) as E.
    { intros i. rewrite reports_app. unfold reports at 2. simpl.
      unfold is_report. simpl. destruct (id =? i); reflexivity. }
    unfold reported_once. simpl. repeat split.
    + apply NoDup_app. repeat split; [exact Hnd | | apply NoDup_singleton].
      intros x Hx Hx'. apply list_elem_of_singleton in Hx'. subst x.
      contradiction.
    + intros i Hi. rewrite E. apply elem_of_app in Hi as [Hi|Hi].
      * rewrite (Hin i Hi).
        destruct (Z.eqb_spec id i) as [->|_]; [contradiction | reflexivity].
      * apply list_elem_of_singleton in Hi. subst i.
        rewrite (Hout id Hnew), Z.eqb_refl. reflexivity.
    + intros i Hi. rewrite E.
      assert (i ∉ unknowns w) as Hi1.
      { intros H. apply Hi, elem_of_app. left. exact H. }
      assert (id <> i) as Hne.
      { intros ->. apply Hi, elem_of_app. right.
        apply list_elem_of_singleton. reflexivity. }
      rewrite (Hout i Hi1).
      destruct (Z.eqb_spec id i); [contradiction | reflexivity].
Qed.

Lemma step_keeps_handled_ids_out w w' (k : Z) :
  k = ID_NEW_MVO_FEEDBACK \/ k = ID_IMU_ATTI ->
  world_step w w' -> k ∉ unknowns w -> k ∉ unknowns w'.
Proof.
  intros Hk Hs Hout. destruct Hs as [w lg m Hq|w lg id len Hnew N1 N2]; simpl.
  - exact Hout.
  - intros H. apply elem_of_app in H as [H|H]; [contradiction|].
    apply list_elem_of_singleton in H. subst k. destruct Hk; contradiction.
Qed.

Lemma step_appends w w' :
  world_step w w' ->
  (unknowns w `prefix_of` unknowns w') /\ (output w `prefix_of` output w').
Proof.
  intros Hs. destruct Hs; simpl; split;
    first [reflexivity | apply prefix_app_r; reflexivity].
Qed.

Lemma steps_keep_invariant (w w' : world) :
  rtc world_step w w' ->
  reported_once w /\ (ID_NEW_MVO_FEEDBACK ∉ unknowns w)
    /\ (ID_IMU_ATTI ∉ unknowns w) ->
  reported_once w' /\ (ID_NEW_MVO_FEEDBACK ∉ unknowns w')
    /\ (ID_IMU_ATTI ∉ unknowns w').
Proof.
  induction 1 as [x|x y z Hs _ IH]; intros (H1 & H2 & H3).
  - split; [exact H1 | split; [exact H2 | exact H3]].
  - apply IH. split; [eapply step_reported_once; eassumption|].
    split; (eapply step_keeps_handled_ids_out; [|eassumption|assumption]);
      [left | right]; reflexivity.
Qed.

(** The invariant of the class attribute, from the loading of the module
    on and through any calls of [update] by any objects: [unknowns] holds
    no id twice, never holds 29 or 2048, and an id is in it exactly when
    its 'UNHANDLED LOG DATA' line was written, which then happened exactly
    once. *)
Theorem unknowns_invariant (calls : list (t * nat * list Z)) :
  reported_once (shared_calls calls world0)
  /\ (ID_NEW_MVO_FEEDBACK ∉ unknowns (shared_calls calls world0))
  /\ (ID_IMU_ATTI ∉ unknowns (shared_calls calls world0)).
Proof.
  apply (steps_keep_invariant world0); [apply shared_calls_world_steps|].
  unfold reported_once, world0. simpl.
  repeat split; try apply NoDup_nil_2; try apply not_elem_of_nil.
  intros id H. apply not_elem_of_nil in H. contradiction.
Qed.

(** The log and [unknowns] are append-only: what a call of [update] finds
    there is a prefix of what it leaves, however the call ends. *)
Theorem update_only_appends (fuel : nat) (data : list Z) (s : state) :
  (unknowns (cls s) `prefix_of` unknowns (cls (update fuel data s).2))
  /\ (output (cls s) `prefix_of` output (cls (update fuel data s).2)).
Proof.
  pose proof (update_world_steps fuel data s) as Hsteps.
  induction Hsteps as [w|w w1 w2 Hs _ [IH1 IH2]].
  - split; reflexivity.
  - destruct (step_appends _ _ Hs) as [P1 P2].
    split; etrans; eassumption.
Qed.

End LogDataInvariants.

(** ** LogData: the edges of [update] *)

Section UpdateEdges.

Import LogData.
Local Open Scope py_scope.

Lemma slice_from_start (data : list Z) : slice_from data 0 = data.
Proof.
  unfold slice_from, clamp_bound. change (0 <? 0) with false. cbv iota.
  replace (Z.to_nat (Z.min (Z.max 0 0) (Z.of_nat (length data))))
    with 0%nat by lia.
  reflexivity.
Qed.

(** With two bytes or fewer the loop is not entered: on exactly two bytes
    [update] returns, having read nothing of them; on one byte or none it
    raises the corrupted-data exception at position 0.  In both cases the
    call counter was incremented and the debug line written. *)
Theorem update_on_two_bytes_or_fewer
    (fuel : nat) (data : list Z) (s : state) :
  (length data <= 2)%nat ->
  update fuel data s
    = (if (length data =? 2)%nat then Returned tt
       else Raised (CorruptedData 0 data),
       enter data s).
Proof.
  intros Hn. unfold update.
  assert (scan fuel data 0 (enter data s) = (Returned 0, enter data s)) as ->.
  { destruct fuel; simpl;
      destruct (Z.ltb_spec 0 (Z.of_nat (length data) - 2));
      first [lia | reflexivity]. }
  rewrite slice_from_start.
  destruct (Nat.eqb_spec (length data) 2) as [E|N].
  - rewrite E. reflexivity.
  - destruct (Z.eqb_spec 0 (Z.of_nat (length data) - 2)); [lia|].
    reflexivity.
Qed.

Lemma update_on_two_bytes_or_fewer_witness :
  update 0 [7; 9] (State (fresh 0) world0)
    = (Returned tt, enter [7; 9] (State (fresh 0) world0))
  /\ update 0 [] (State (fresh 0) world0)
     = (Raised (CorruptedData 0 []), enter [] (State (fresh 0) world0)).
Proof.
  split.
  - apply (update_on_two_bytes_or_fewer 0 [7; 9]). simpl. lia.
  - apply (update_on_two_bytes_or_fewer 0 []). simpl. lia.
Defined.

(** A stream of three bytes or more that does not start with the sync
    marker 0x55 is refused at once: [update] raises the corrupted-data
    exception with position 0 and the whole data, and touches neither the
    sub-decoders nor [unknowns]. *)
Theorem update_refuses_missing_sync
    (fuel : nat) (data : list Z) (s : state) :
  (3 <= length data)%nat ->
  byte_at data 0 <> 85 ->
  update (S fuel) data s = (Raised (CorruptedData 0 data), enter data s).
Proof.
  intros Hn Hsync. unfold update. simpl scan.
  destruct (Z.ltb_spec 0 (Z.of_nat (length data) - 2)); [|lia].
  unfold record, bind, lift. change (0 + 0) with 0.
  unfold unpack_B. rewrite unpack_offset_in by lia.
  change (Z.to_nat 0) with 0%nat.
  destruct (Z.eqb_spec (byte_at data 0) 85); [contradiction|].
  simpl. rewrite slice_from_start. reflexivity.
Qed.

Lemma update_refuses_missing_sync_witness :
  update 1 [84; 12; 0; 0; 7] (State (fresh 0) world0)
    = (Raised (CorruptedData 0 [84; 12; 0; 0; 7]),
       enter [84; 12; 0; 0; 7] (State (fresh 0) world0)).
Proof.
  apply (update_refuses_missing_sync 0 [84; 12; 0; 0; 7]).
  - simpl. lia.
  - vm_compute. discriminate.
Defined.

End UpdateEdges.

(** ** The two sub-decoders *)

Lemma bind_inl {S A B} (m : M S A) (k : A -> M S B) (s s' : S) (e : exn) :
  m s = (inl e, s') -> bind m k s = (inl e, s').
Proof. intros H. unfold bind. rewrite H. reflexivity. Qed.

(** One step of a sub-decoder: the first statement is run and the
    attributes of the state it leaves are computed. *)
Ltac decoder_step :=
  first [ erewrite bind_inr by reflexivity
        | erewrite bind_inl by reflexivity ];
  cbn [LogData.self LogData.cls LogData.log LogData.count LogData.mvo
       LogData.imu LogData.unknowns LogData.output fst snd
       LogData.mvo_count LogData.vel_x LogData.vel_y LogData.vel_z
       LogData.pos_x LogData.pos_y LogData.pos_z
       LogData.imu_count LogData.acc_x LogData.acc_y LogData.acc_z
       LogData.gyro_x LogData.gyro_y LogData.gyro_z
       LogData.q0 LogData.q1 LogData.q2 LogData.q3
       LogData.vg_x LogData.vg_y LogData.vg_z].

Ltac decoder_steps := repeat decoder_step.

Section SubDecoders.

Import LogData.
Local Open Scope py_scope.

Lemma unpack_hhh_in (p : list Z) (o : Z) :
  0 <= o -> o + 6 <= Z.of_nat (length p) ->
  unpack_hhh p o
    = inr (short_at p (Z.to_nat o), short_at p (Z.to_nat o + 2),
           short_at p (Z.to_nat o + 4)).
Proof.
  intros. unfold unpack_hhh. rewrite unpack_offset_in by lia. reflexivity.
Qed.

Lemma unpack_fff_in (p : list Z) (o : Z) :
  0 <= o -> o + 12 <= Z.of_nat (length p) ->
  unpack_fff p o
    = inr (float_at p (Z.to_nat o), float_at p (Z.to_nat o + 4),
           float_at p (Z.to_nat o + 8)).
Proof.
  intros. unfold unpack_fff. rewrite unpack_offset_in by lia. reflexivity.
Qed.

Lemma unpack_ffff_in (p : list Z) (o : Z) :
  0 <= o -> o + 16 <= Z.of_nat (length p) ->
  unpack_ffff p o
    = inr (float_at p (Z.to_nat o), float_at p (Z.to_nat o + 4),
           float_at p (Z.to_nat o + 8), float_at p (Z.to_nat o + 12)).
Proof.
  intros. unfold unpack_ffff. rewrite unpack_offset_in by lia. reflexivity.
Qed.

Lemma unpack_offset_short (n : nat) (size o : Z) :
  0 <= o -> Z.of_nat n < o + size -> unpack_offset n size o = None.
Proof.
  intros H0 H1. unfold unpack_offset.
  destruct (Z.ltb_spec o 0); [lia|].
  destruct (Z.leb_spec size (Z.of_nat n - o)); [lia|].
  rewrite andb_false_r. reflexivity.
Qed.

Lemma unpack_hhh_short (p : list Z) (o : Z) :
  0 <= o -> Z.of_nat (length p) < o + 6 -> unpack_hhh p o = inl StructError.
Proof.
  intros. unfold unpack_hhh. rewrite unpack_offset_short by lia. reflexivity.
Qed.

Lemma unpack_fff_short (p : list Z) (o : Z) :
  0 <= o -> Z.of_nat (length p) < o + 12 -> unpack_fff p o = inl StructError.
Proof.
  intros. unfold unpack_fff. rewrite unpack_offset_short by lia. reflexivity.
Qed.

Lemma unpack_ffff_short (p : list Z) (o : Z) :
  0 <= o -> Z.of_nat (length p) < o + 16 -> unpack_ffff p o = inl StructError.
Proof.
  intros. unfold unpack_ffff. rewrite unpack_offset_short by lia. reflexivity.
Qed.

(** [LogNewMvoFeedback.update] on a payload of 20 bytes or more returns:
    the three velocities are the signed 16-bit values at offsets 2, 4 and 6
    divided by 100.0, the three positions the floats at offsets 8, 12 and
    16, [count] the argument; the object of the other sub-decoder, the
    call counter and the class are not touched, and the two debug lines are
    written. *)
Theorem mvo_update_decodes (p : list Z) (cnt : Z) (s : state) :
  (20 <= length p)%nat ->
  mvo_update p cnt s
    = (inr tt,
       State (Make (log (self s)) (count (self s))
                   (mvo_decoded p cnt) (imu (self s)))
             (World (unknowns (cls s))
                    (output (cls s)
                       ++ [(log (self s), DebugMvoInput p);
                           (log (self s), DebugMvoDecoded)]))).
Proof.
  intros Hn. unfold mvo_update.
  rewrite unpack_hhh_in, unpack_fff_in by lia. to_nat_lit.
  decoder_steps. unfold emit. cbn [self cls log unknowns output].
  rewrite <- app_assoc. reflexivity.
Qed.

Lemma mvo_update_decodes_witness :
  mvo_update (replicate 20 1) 5 (State (fresh 3) world0)
    = (inr tt,
       State (Make 3 0 (mvo_decoded (replicate 20 1) 5) imu0)
             (World []
                    [(3%nat, DebugMvoInput (replicate 20 1));
                     (3%nat, DebugMvoDecoded)])).
Proof.
  apply (mvo_update_decodes (replicate 20 1) 5 (State (fresh 3) world0)).
  simpl. lia.
Defined.

(** On a payload shorter than 20 bytes [LogNewMvoFeedback.update] raises
    [struct.error], and the object is left half updated: [count] is
    already the new one, the positions are the old ones, and the velocities
    are the new ones as soon as the payload has the 8 bytes of the first
    unpack, the old ones otherwise. *)
Theorem mvo_update_short_payload (p : list Z) (cnt : Z) (s : state) :
  (length p < 20)%nat ->
  exists s',
    mvo_update p cnt s = (inl StructError, s')
    /\ mvo_count (mvo (self s')) = cnt
    /\ pos_x (mvo (self s')) = pos_x (mvo (self s))
    /\ pos_y (mvo (self s')) = pos_y (mvo (self s))
    /\ pos_z (mvo (self s')) = pos_z (mvo (self s))
    /\ ((8 <= length p)%nat ->
        vel_x (mvo (self s')) = FCenti (short_at p 2)
        /\ vel_y (mvo (self s')) = FCenti (short_at p 4)
        /\ vel_z (mvo (self s')) = FCenti (short_at p 6))
    /\ ((length p < 8)%nat ->
        vel_x (mvo (self s')) = vel_x (mvo (self s))
        /\ vel_y (mvo (self s')) = vel_y (mvo (self s))
        /\ vel_z (mvo (self s')) = vel_z (mvo (self s))).
Proof.
  intros Hn. unfold mvo_update.
  destruct (decide (8 <= length p)%nat) as [H8|H8].
  - rewrite unpack_hhh_in, unpack_fff_short by lia. to_nat_lit.
    decoder_steps. eexists. split; [reflexivity|].
    cbn [self mvo mvo_count vel_x vel_y vel_z pos_x pos_y pos_z].
    repeat split; intros; try reflexivity; lia.
  - rewrite unpack_hhh_short by lia.
    decoder_steps. eexists. split; [reflexivity|].
    cbn [self mvo mvo_count vel_x vel_y vel_z pos_x pos_y pos_z].
    repeat split; intros; try reflexivity; lia.
Qed.

Lemma mvo_update_short_payload_witness :
  exists s',
    mvo_update [0; 0; 44; 1; 0; 0; 0; 0] 5 (State (fresh 3) world0)
      = (inl StructError, s')
    /\ mvo_count (mvo (self s')) = 5
    /\ pos_x (mvo (self s')) = FZero
    /\ pos_y (mvo (self s')) = FZero
    /\ pos_z (mvo (self s')) = FZero
    /\ ((8 <= 8)%nat ->
        vel_x (mvo (self s')) = FCenti 300
        /\ vel_y (mvo (self s')) = FCenti 0
        /\ vel_z (mvo (self s')) = FCenti 0)
    /\ ((8 < 8)%nat ->
        vel_x (mvo (self s')) = FZero
        /\ vel_y (mvo (self s')) = FZero
        /\ vel_z (mvo (self s')) = FZero).
Proof.
  apply (mvo_update_short_payload [0; 0; 44; 1; 0; 0; 0; 0] 5
           (State (fresh 3) world0)).
  simpl. lia.
Defined.

Lemma float_at_ext (p p' : list Z) (o : nat) :
  (forall k, (k < 4)%nat -> byte_at p' (o + k) = byte_at p (o + k)) ->
  float_at p' o = float_at p o.
Proof.
  intros H. unfold float_at.
  rewrite <- (Nat.add_0_r o) at 1 5.
  rewrite !H by lia. reflexivity.
Qed.

Lemma imu_update_returns (p : list Z) (cnt : Z) (s : state) :
  (88 <= length p)%nat ->
  imu_update p cnt s
    = (inr tt,
       State (Make (log (self s)) (count (self s))
                   (mvo (self s)) (imu_decoded p cnt))
             (World (unknowns (cls s))
                    (output (cls s)
                       ++ [(log (self s), DebugImuInput p);
                           (log (self s), DebugImuDecoded)]))).
Proof.
  intros Hn. unfold imu_update.
  rewrite !unpack_fff_in, unpack_ffff_in by lia. to_nat_lit.
  decoder_steps. unfold emit. cbn [self cls log unknowns output].
  rewrite <- app_assoc. reflexivity.
Qed.

(** [LogImuAtti.update] on a payload of 88 bytes or more returns: the
    accelerations are the floats at offsets 20, 24, 28, the gyroscope rates
    those at 32, 36, 40, the quaternion those at 48, 52, 56, 60, the ground
    velocities those at 76, 80, 84, and the first debug line carries the
    whole payload.  The attributes depend on the bytes at offsets 20-43,
    48-63 and 76-87 only: two payloads that agree there leave the same
    attributes, whatever they hold at offsets 0-19, 44-47, 64-75 and from
    88 on. *)
Theorem imu_update_decodes (p : list Z) (cnt : Z) (s : state) :
  (88 <= length p)%nat ->
  imu_update p cnt s
    = (inr tt,
       State (Make (log (self s)) (count (self s))
                   (mvo (self s)) (imu_decoded p cnt))
             (World (unknowns (cls s))
                    (output (cls s)
                       ++ [(log (self s), DebugImuInput p);
                           (log (self s), DebugImuDecoded)])))
  /\ forall (p' : list Z) (s' : state),
       (88 <= length p')%nat ->
       (forall i, (20 <= i < 44 \/ 48 <= i < 64 \/ 76 <= i < 88)%nat ->
                  byte_at p' i = byte_at p i) ->
       imu (self (imu_update p' cnt s').2) = imu (self (imu_update p cnt s).2).
Proof.
  intros Hn. split; [exact (imu_update_returns p cnt s Hn)|].
  intros p' s' Hn' Hsame.
  rewrite !imu_update_returns by assumption.
  cbn [snd self imu]. unfold imu_decoded.
  f_equal; apply float_at_ext; intros k Hk; apply Hsame; lia.
Qed.

Lemma imu_update_decodes_witness :
  imu_update (replicate 88 1) 5 (State (fresh 3) world0)
    = (inr tt,
       State (Make 3 0 mvo0 (imu_decoded (replicate 88 1) 5))
             (World []
                    [(3%nat, DebugImuInput (replicate 88 1));
                     (3%nat, DebugImuDecoded)]))
  /\ imu (self (imu_update (replicate 20 9 ++ replicate 70 1) 5
                           (State (fresh 4) world0)).2)
     = imu (self (imu_update (replicate 88 1) 5
                             (State (fresh 3) world0)).2).
Proof.
  destruct (imu_update_decodes (replicate 88 1) 5 (State (fresh 3) world0))
    as [Hret Hdep].
  - simpl. lia.
  - split; [exact Hret|].
    apply Hdep.
    + simpl. lia.
    + intros i Hi.
      do 20 (destruct i as [|i]; [lia|]).
      do 68 (destruct i as [|i]; [reflexivity|]).
      lia.
Defined.

(** On a payload shorter than 88 bytes [LogImuAtti.update] raises
    [struct.error]; [count] is already the new one and the ground
    velocities, which are unpacked last, are the old ones. *)
Theorem imu_update_short_payload (p : list Z) (cnt : Z) (s : state) :
  (length p < 88)%nat ->
  exists s',
    imu_update p cnt s = (inl StructError, s')
    /\ imu_count (imu (self s')) = cnt
    /\ vg_x (imu (self s')) = vg_x (imu (self s))
    /\ vg_y (imu (self s')) = vg_y (imu (self s))
    /\ vg_z (imu (self s')) = vg_z (imu (self s)).
Proof.
  intros Hn. unfold imu_update.
  assert (forall s' : state,
             imu_count (imu (self s')) = cnt ->
             vg_x (imu (self s')) = vg_x (imu (self s)) ->
             vg_y (imu (self s')) = vg_y (imu (self s)) ->
             vg_z (imu (self s')) = vg_z (imu (self s)) ->
             exists s'',
               (inl StructError, s') = (@inl exn unit StructError, s'')
               /\ imu_count (imu (self s'')) = cnt
               /\ vg_x (imu (self s'')) = vg_x (imu (self s))
               /\ vg_y (imu (self s'')) = vg_y (imu (self s))
               /\ vg_z (imu (self s'')) = vg_z (imu (self s))) as Hdone.
  { intros s' A B C D. exists s'. repeat split; assumption. }
  destruct (decide (32 <= length p)%nat) as [H32|H32].
  2: { rewrite (unpack_fff_short p 20) by lia. decoder_steps.
       apply Hdone; reflexivity. }
  rewrite (unpack_fff_in p 20) by lia.
  destruct (decide (44 <= length p)%nat) as [H44|H44].
  2: { rewrite (unpack_fff_short p 32) by lia. decoder_steps.
       apply Hdone; reflexivity. }
  rewrite (unpack_fff_in p 32) by lia.
  destruct (decide (64 <= length p)%nat) as [H64|H64].
  2: { rewrite (unpack_ffff_short p 48) by lia. decoder_steps.
       apply Hdone; reflexivity. }
  rewrite (unpack_ffff_in p 48) by lia.
  rewrite (unpack_fff_short p 76) by lia. decoder_steps.
  apply Hdone; reflexivity.
Qed.

Lemma imu_update_short_payload_witness :
  exists s',
    imu_update (replicate 87 1) 5 (State (fresh 3) world0)
      = (inl StructError, s')
    /\ imu_count (imu (self s')) = 5
    /\ vg_x (imu (self s')) = FZero
    /\ vg_y (imu (self s')) = FZero
    /\ vg_z (imu (self s')) = FZero.
Proof.
  apply (imu_update_short_payload (replicate 87 1) 5
           (State (fresh 3) world0)).
  simpl. lia.
Defined.

End SubDecoders.

(** ** LogData: well-formed streams *)

Section Streams.

Import LogData Stream.
Local Open Scope py_scope.

Lemma byte_at_app_r (pre l : list Z) (k : nat) :
  byte_at (pre ++ l) (length pre + k) = byte_at l k.
Proof.
  unfold byte_at. rewrite lookup_app_r by lia.
  replace (length pre + k - length pre)%nat with k by lia. reflexivity.
Qed.

Lemma unpack_offset_at (pre l : list Z) (size k : Z) :
  0 <= k -> k + size <= Z.of_nat (length l) ->
  unpack_offset (length (pre ++ l)) size (Z.of_nat (length pre) + k)
    = Some (length pre + Z.to_nat k)%nat.
Proof.
  intros H0 H1. rewrite unpack_offset_in.
  - f_equal. lia.
  - lia.
  - rewrite length_app. lia.
Qed.

Lemma getitem_at (pre l : list Z) (k : Z) :
  0 <= k < Z.of_nat (length l) ->
  getitem (pre ++ l) (Z.of_nat (length pre) + k)
    = inr (byte_at l (Z.to_nat k)).
Proof.
  intros Hk. rewrite getitem_in by (rewrite length_app; lia).
  replace (Z.to_nat (Z.of_nat (length pre) + k))
    with (length pre + Z.to_nat k)%nat by lia.
  rewrite byte_at_app_r. reflexivity.
Qed.

Lemma lxor_twice (key : Z) (p : list Z) :
  map (fun x => Z.lxor x key) (map (fun x => Z.lxor x key) p) = p.
Proof.
  induction p as [|x p IH]; simpl; [reflexivity|].
  rewrite IH. f_equal.
  rewrite Z.lxor_assoc, Z.lxor_nilpotent, Z.lxor_0_r. reflexivity.
Qed.

Lemma bytes_of_length (r : rec) :
  Z.of_nat (length (bytes_of r)) = rec_length r.
Proof.
  unfold bytes_of, record_bytes, rec_length.
  rewrite !length_app, length_map. simpl length. lia.
Qed.

(** One turn of the loop on a well-formed record that starts at [pos]:
    the header fields are read back, the payload is de-obfuscated with the
    key, and the turn is the dispatch on the id followed by
    [pos += length]. *)
Lemma record_at (pre tail : list Z) (r : rec) (s : state) :
  well_formed r = true ->
  record (pre ++ bytes_of r ++ tail) (Z.of_nat (length pre)) s
    = bind (dispatch (rec_id r) (rec_length r) (rec_payload r))
           (fun _ => ret (Z.of_nat (length pre) + rec_length r)) s.
Proof.
  intros Hwf. unfold well_formed in Hwf.
  apply andb_true_iff in Hwf as [Hwf Hlen].
  apply andb_true_iff in Hwf as [Hid0 Hid1].
  apply Z.leb_le in Hid0. apply Z.ltb_lt in Hid1. apply Z.ltb_lt in Hlen.
  unfold rec_length in *.
  set (n := length (rec_payload r)) in *.
  set (enc := map (fun x => Z.lxor x (rec_key r)) (rec_payload r)).
  assert (length enc = n) as Henc by (unfold enc; apply length_map).
  unfold bytes_of, record_bytes. fold n. fold enc.
  set (L := Z.of_nat n + 12) in *.
  cbn [app].
  set (l := 85 :: _).
  assert (Z.of_nat (length l) = L + Z.of_nat (length tail)) as Hl.
  { unfold l. simpl length. rewrite !length_app, Henc. simpl length. lia. }
  unfold record.
  unfold bind at 1. unfold lift at 1. unfold unpack_B.
  rewrite unpack_offset_at by lia. rewrite byte_at_app_r.
  change (byte_at l (Z.to_nat 0)) with 85.
  change (negb (85 =? 85)) with false. cbv iota.
  unfold bind at 1. unfold lift at 1. unfold unpack_h.
  rewrite unpack_offset_at by lia.
  replace (S (length pre + Z.to_nat 1)) with (length pre + 2)%nat by lia.
  rewrite !byte_at_app_r.
  change (byte_at l (Z.to_nat 1)) with (le16 L).1.
  change (byte_at l 2) with (le16 L).2.
  rewrite le16_join by lia.
  assert (to_signed16 L = L) as ->.
  { unfold to_signed16. destruct (Z.ltb_spec L 32768); [reflexivity | lia]. }
  unfold bind at 1. unfold lift at 1.
  rewrite getitem_at by lia.
  unfold bind at 1. unfold lift at 1. unfold unpack_H.
  rewrite unpack_offset_at by lia.
  replace (S (length pre + Z.to_nat 4)) with (length pre + 5)%nat by lia.
  rewrite !byte_at_app_r.
  change (byte_at l (Z.to_nat 4)) with (le16 (rec_id r)).1.
  change (byte_at l 5) with (le16 (rec_id r)).2.
  rewrite le16_join by lia.
  unfold bind at 1. unfold lift at 1.
  rewrite getitem_at by lia.
  change (byte_at l (Z.to_nat 6)) with (rec_key r).
  assert (slice (pre ++ l) (Z.of_nat (length pre) + 10)
                (Z.of_nat (length pre) + 10 + L - 12) = enc) as ->.
  { rewrite slice_in by (rewrite length_app; lia).
    replace (Z.to_nat (Z.of_nat (length pre) + 10))
      with (length pre + 10)%nat by lia.
    replace (Z.to_nat (Z.of_nat (length pre) + 10 + L - 12)
             - (length pre + 10))%nat with n by lia.
    rewrite drop_app_add. unfold l. cbn [drop].
    rewrite <- app_assoc. apply take_app_length'. symmetry. exact Henc. }
  unfold enc. rewrite lxor_twice. reflexivity.
Qed.

Lemma scan_stream (recs : list rec) :
  forall (pre : list Z) (c1 c2 : Z) (fuel : nat) (s : state),
    forallb well_formed recs = true ->
    (length recs <= fuel)%nat ->
    scan fuel (pre ++ stream recs c1 c2) (Z.of_nat (length pre)) s
      = match handle recs s with
        | (inl e, s') => (Raised e, s')
        | (inr _, s') =>
            (Returned (Z.of_nat (length (pre ++ stream recs c1 c2)) - 2), s')
        end.
Proof.
  induction recs as [|r recs IH]; intros pre c1 c2 fuel s Hwf Hfuel.
  - unfold stream. simpl concat. simpl handle. unfold ret.
    change ([] ++ [c1; c2]) with [c1; c2].
    assert (Z.of_nat (length (pre ++ [c1; c2])) - 2
            = Z.of_nat (length pre)) as E
      by (rewrite length_app; simpl length; lia).
    rewrite E.
    destruct fuel; cbn [scan]; rewrite E, Z.ltb_irrefl; reflexivity.
  - simpl in Hwf. apply andb_true_iff in Hwf as [Hr Hrest].
    pose proof Hr as Hr'.
    unfold well_formed, rec_length in Hr'.
    destruct fuel as [|fuel]; [simpl in Hfuel; lia|].
    assert (pre ++ stream (r :: recs) c1 c2
            = pre ++ bytes_of r ++ stream recs c1 c2) as Eshape.
    { unfold stream. simpl. rewrite <- app_assoc. reflexivity. }
    assert (pre ++ stream (r :: recs) c1 c2
            = (pre ++ bytes_of r) ++ stream recs c1 c2) as Eshape2.
    { rewrite Eshape, app_assoc. reflexivity. }
    pose proof (bytes_of_length r) as Hlen.
    simpl scan.
    destruct (Z.ltb_spec (Z.of_nat (length pre))
                (Z.of_nat (length (pre ++ stream (r :: recs) c1 c2)) - 2))
      as [_|Hge].
    2: { rewrite Eshape in Hge. rewrite !length_app in Hge.
         unfold stream in Hge. rewrite length_app in Hge.
         simpl length in Hge. unfold rec_length in Hlen. lia. }
    rewrite Eshape at 1. rewrite record_at by exact Hr.
    simpl handle. unfold bind.
    destruct (dispatch (rec_id r) (rec_length r) (rec_payload r) s)
      as [[e|[]] s1]; [reflexivity|].
    unfold ret.
    replace (Z.of_nat (length pre) + rec_length r)
      with (Z.of_nat (length (pre ++ bytes_of r)))
      by (rewrite length_app; lia).
    rewrite Eshape2.
    apply IH; [exact Hrest | simpl in Hfuel; lia].
Qed.

Lemma scan_stream_start
    (recs : list rec) (c1 c2 : Z) (fuel : nat) (s : state) :
  forallb well_formed recs = true ->
  (length recs <= fuel)%nat ->
  scan fuel (stream recs c1 c2) 0 s
    = match handle recs s with
      | (inl e, s') => (Raised e, s')
      | (inr _, s') =>
          (Returned (Z.of_nat (length (stream recs c1 c2)) - 2), s')
      end.
Proof.
  intros Hwf Hfuel. exact (scan_stream recs [] c1 c2 fuel s Hwf Hfuel).
Qed.

(** [update] on a stream of well-formed records followed by two trailing
    bytes, with at least one turn of the loop allowed per record, does what
    the dispatch does on the records in order: it returns when every
    dispatch returns, and raises the exception of the first one that
    raises, with the earlier records already handled.  The records are
    found at the right places, each payload is xored back with its own key,
    and the checksum byte, the last three tick bytes, the two closing bytes
    of each record and the two trailing bytes have no influence. *)
Theorem update_handles_stream
    (recs : list rec) (c1 c2 : Z) (fuel : nat) (s : state) :
  forallb well_formed recs = true ->
  (length recs <= fuel)%nat ->
  update fuel (stream recs c1 c2) s
    = match handle recs (enter (stream recs c1 c2) s) with
      | (inl e, s') => (Raised e, s')
      | (inr _, s') => (Returned tt, s')
      end.
Proof.
  intros Hwf Hfuel. unfold update.
  rewrite scan_stream_start by assumption.
  destruct (handle recs (enter (stream recs c1 c2) s)) as [[e|[]] s1];
    [reflexivity|].
  rewrite Z.eqb_refl. reflexivity.
Qed.

End Streams.

Section StreamsMore.

Import LogData Stream.
Local Open Scope py_scope.

Lemma stream_one_length (r : rec) (c1 c2 : Z) :
  Z.of_nat (length (stream [r] c1 c2)) = rec_length r + 2.
Proof.
  unfold stream. cbn [map concat].
  rewrite app_nil_r, length_app, Nat2Z.inj_add, bytes_of_length.
  reflexivity.
Qed.

Lemma update_handles_stream_witness :
  update 2
    (stream [Rec 7 90 0 1 2 3 [1; 2; 3] 8 9;
             Rec 29 165 0 0 0 0 (replicate 20 1) 8 9] 4 5)
    (State (fresh 0) world0)
  = (Returned tt,
     State (Make 0 1 (mvo_decoded (replicate 20 1) 1) imu0)
           (World [7]
                  [(0%nat, DebugDataLength 49);
                   (0%nat, InfoUnhandled 7 3);
                   (0%nat, DebugMvoInput (replicate 20 1));
                   (0%nat, DebugMvoDecoded)])).
Proof.
  rewrite (update_handles_stream
             [Rec 7 90 0 1 2 3 [1; 2; 3] 8 9;
              Rec 29 165 0 0 0 0 (replicate 20 1) 8 9] 4 5 2
             (State (fresh 0) world0)).
  - vm_compute. reflexivity.
  - reflexivity.
  - simpl. lia.
Defined.

(** A stream of one well-formed motion-feedback record (id 29, payload
    of 20 bytes or more sent xored with the key) and the two trailing
    bytes: [update] returns, the velocities and positions are those of the
    payload, and the sub-decoder's [count] is the call counter of the
    object after its increment. *)
Theorem update_decodes_motion_record
    (key chk t1 t2 t3 r1 r2 c1 c2 : Z) (p : list Z)
    (fuel : nat) (s : state) :
  (20 <= length p)%nat ->
  Z.of_nat (length p) + 12 < 32768 ->
  update (S fuel)
    (stream [Rec ID_NEW_MVO_FEEDBACK key chk t1 t2 t3 p r1 r2] c1 c2) s
  = (Returned tt,
     State (Make (log (self s)) (count (self s) + 1)
                 (mvo_decoded p (count (self s) + 1)) (imu (self s)))
           (World (unknowns (cls s))
                  (output (cls s)
                     ++ [(log (self s),
                          DebugDataLength (Z.of_nat (length p) + 14));
                         (log (self s), DebugMvoInput p);
                         (log (self s), DebugMvoDecoded)]))).
Proof.
  intros Hn Hlen.
  assert (Z.of_nat
            (length (stream [Rec ID_NEW_MVO_FEEDBACK key chk t1 t2 t3 p r1 r2] c1 c2))
          = Z.of_nat (length p) + 14) as Hdata.
  { rewrite stream_one_length. unfold rec_length. cbn [rec_payload]. lia. }
  unfold update.
  rewrite scan_stream_start.
  2: { cbn [forallb]. unfold well_formed, rec_length.
       cbn [rec_id rec_payload].
       rewrite (proj2 (Z.ltb_lt _ _) Hlen). reflexivity. }
  2: { cbn [length]. lia. }
  cbn [handle rec_id rec_payload].
  erewrite bind_inr.
  2: { unfold dispatch. rewrite Z.eqb_refl. unfold enter.
       erewrite bind_inr by reflexivity.
       cbn [self cls log count mvo imu unknowns output]. unfold mvo_update.
       rewrite unpack_hhh_in, unpack_fff_in by lia. to_nat_lit.
       decoder_steps. unfold emit.
       cbn [self cls log count mvo imu unknowns output]. reflexivity. }
  unfold ret. rewrite Z.eqb_refl. cbn [negb].
  rewrite Hdata, <- !app_assoc. reflexivity.
Qed.

Lemma update_decodes_motion_record_witness :
  update 1
    (stream [Rec ID_NEW_MVO_FEEDBACK 165 0 0 0 0 (replicate 20 1) 8 9] 4 5)
    (State (fresh 0) world0)
  = (Returned tt,
     State (Make 0 (0 + 1) (mvo_decoded (replicate 20 1) (0 + 1)) imu0)
           (World []
                  ([] ++ [(0%nat, DebugDataLength (Z.of_nat 20 + 14));
                          (0%nat, DebugMvoInput (replicate 20 1));
                          (0%nat, DebugMvoDecoded)]))).
Proof.
  apply (update_decodes_motion_record 165 0 0 0 0 8 9 4 5
           (replicate 20 1) 0 (State (fresh 0) world0)).
  - simpl. lia.
  - simpl. lia.
Defined.

(** The same for one attitude record (id 2048, payload of 88 bytes or
    more). *)
Theorem update_decodes_attitude_record
    (key chk t1 t2 t3 r1 r2 c1 c2 : Z) (p : list Z)
    (fuel : nat) (s : state) :
  (88 <= length p)%nat ->
  Z.of_nat (length p) + 12 < 32768 ->
  update (S fuel)
    (stream [Rec ID_IMU_ATTI key chk t1 t2 t3 p r1 r2] c1 c2) s
  = (Returned tt,
     State (Make (log (self s)) (count (self s) + 1)
                 (mvo (self s)) (imu_decoded p (count (self s) + 1)))
           (World (unknowns (cls s))
                  (output (cls s)
                     ++ [(log (self s),
                          DebugDataLength (Z.of_nat (length p) + 14));
                         (log (self s), DebugImuInput p);
                         (log (self s), DebugImuDecoded)]))).
Proof.
  intros Hn Hlen.
  assert (Z.of_nat
            (length (stream [Rec ID_IMU_ATTI key chk t1 t2 t3 p r1 r2] c1 c2))
          = Z.of_nat (length p) + 14) as Hdata.
  { rewrite stream_one_length. unfold rec_length. cbn [rec_payload]. lia. }
  unfold update.
  rewrite scan_stream_start.
  2: { cbn [forallb]. unfold well_formed, rec_length.
       cbn [rec_id rec_payload].
       rewrite (proj2 (Z.ltb_lt _ _) Hlen). reflexivity. }
  2: { cbn [length]. lia. }
  cbn [handle rec_id rec_payload].
  erewrite bind_inr.
  2: { unfold dispatch. change (ID_IMU_ATTI =? ID_NEW_MVO_FEEDBACK) with false.
       rewrite Z.eqb_refl. unfold enter.
       erewrite bind_inr by reflexivity.
       cbn [self cls log count mvo imu unknowns output]. unfold imu_update.
       rewrite !unpack_fff_in, unpack_ffff_in by lia. to_nat_lit.
       decoder_steps. unfold emit.
       cbn [self cls log count mvo imu unknowns output]. reflexivity. }
  unfold ret. rewrite Z.eqb_refl. cbn [negb].
  rewrite Hdata, <- !app_assoc. reflexivity.
Qed.

Lemma update_decodes_attitude_record_witness :
  update 1
    (stream [Rec ID_IMU_ATTI 165 0 0 0 0 (replicate 88 1) 8 9] 4 5)
    (State (fresh 0) world0)
  = (Returned tt,
     State (Make 0 (0 + 1) mvo0 (imu_decoded (replicate 88 1) (0 + 1)))
           (World []
                  ([] ++ [(0%nat, DebugDataLength (Z.of_nat 88 + 14));
                          (0%nat, DebugImuInput (replicate 88 1));
                          (0%nat, DebugImuDecoded)]))).
Proof.
  apply (update_decodes_attitude_record 165 0 0 0 0 8 9 4 5
           (replicate 88 1) 0 (State (fresh 0) world0)).
  - simpl. lia.
  - simpl. lia.
Defined.

(** A turn of the loop that does not raise has found the marker 0x55 at
    [pos] and moves [pos] by the length field read at [pos + 1]. *)
Lemma record_advances_marker (data : list Z) (pos pos' : Z) (s s' : state) :
  record data pos s = (inr pos', s') ->
  unpack_B data (pos + 0) = inr 85
  /\ exists len, unpack_h data (pos + 1) = inr len /\ pos' = pos + len.
Proof.
  intros H. split.
  - unfold record in H.
    apply bind_inr_inv in H as (sync & s1 & Hs & H).
    destruct (Z.eqb_spec sync 85) as [->|]; [|discriminate].
    unfold lift in Hs. congruence.
  - exact (record_advances data pos pos' s s' H).
Qed.

Lemma scan_ends_on_path (data : list Z) :
  lengths_positive_on_path data ->
  forall (fuel : nat) (pos : Z) (s : state),
    reached data pos ->
    0 <= pos ->
    Z.of_nat (length data) - 2 - pos <= Z.of_nat fuel ->
    (scan fuel data pos s).1 <> Unfinished.
Proof.
  intros Hpos. induction fuel as [|fuel IH]; intros pos s Hr H0 Hf; simpl.
  - destruct (Z.ltb_spec pos (Z.of_nat (length data) - 2)); [lia|].
    discriminate.
  - destruct (Z.ltb_spec pos (Z.of_nat (length data) - 2)) as [Hlt|];
      [|discriminate].
    destruct (record data pos s) as [[e|pos'] s1] eqn:E; [discriminate|].
    apply record_advances_marker in E as (Hm & len & Hl & ->).
    pose proof (Hpos pos len Hr Hlt Hm Hl).
    apply IH; [exact (reached_next data pos len Hr Hlt Hm Hl) | lia | lia].
Qed.

(** The length field of a well-formed record is read back at its place. *)
Lemma length_field_at (pre tail : list Z) (r : rec) :
  well_formed r = true ->
  unpack_h (pre ++ bytes_of r ++ tail) (Z.of_nat (length pre) + 1)
    = inr (rec_length r).
Proof.
  intros Hwf. unfold well_formed in Hwf.
  apply andb_true_iff in Hwf as [_ Hlen]. apply Z.ltb_lt in Hlen.
  unfold rec_length in *.
  set (n := length (rec_payload r)) in *.
  set (enc := map (fun x => Z.lxor x (rec_key r)) (rec_payload r)).
  unfold bytes_of, record_bytes. fold n. fold enc.
  set (L := Z.of_nat n + 12) in *.
  cbn [app].
  set (l := 85 :: _).
  assert (12 <= Z.of_nat (length l)) as Hl.
  { unfold l. simpl length. rewrite !length_app. simpl length. lia. }
  unfold unpack_h.
  rewrite unpack_offset_at by lia.
  replace (S (length pre + Z.to_nat 1)) with (length pre + 2)%nat by lia.
  rewrite !byte_at_app_r.
  change (byte_at l (Z.to_nat 1)) with (le16 L).1.
  change (byte_at l 2) with (le16 L).2.
  rewrite le16_join by lia.
  unfold to_signed16. destruct (Z.ltb_spec L 32768); [reflexivity | lia].
Qed.

Lemma forallb_lookup {A} (f : A -> bool) (l : list A) (k : nat) (x : A) :
  forallb f l = true -> l !! k = Some x -> f x = true.
Proof.
  revert k. induction l as [|y l IH]; intros k Hf Hk; [discriminate|].
  simpl in Hf. apply andb_true_iff in Hf as [Hy Hl].
  destruct k as [|k]; simpl in Hk.
  - congruence.
  - exact (IH k Hl Hk).
Qed.

Lemma stream_split (recs : list rec) (c1 c2 : Z) (k : nat) (r : rec) :
  recs !! k = Some r ->
  stream recs c1 c2
    = concat (map bytes_of (take k recs))
        ++ bytes_of r ++ stream (drop (S k) recs) c1 c2.
Proof.
  intros Hrk. unfold stream.
  rewrite <- (take_drop_middle recs k r Hrk) at 1.
  rewrite map_app, concat_app. cbn [map concat].
  rewrite <- !app_assoc. reflexivity.
Qed.

(** On a stream of well-formed records the loop comes to the starts of the
    records and to the two trailing bytes, and nowhere else. *)
Lemma reached_stream (recs : list rec) (c1 c2 : Z) (pos : Z) :
  forallb well_formed recs = true ->
  reached (stream recs c1 c2) pos ->
  exists k,
    (k <= length recs)%nat
    /\ pos = Z.of_nat (length (concat (map bytes_of (take k recs)))).
Proof.
  intros Hwf Hr.
  induction Hr as [|pos len Hr IH Hlt Hm Hh].
  - exists 0%nat. split; [lia | reflexivity].
  - destruct IH as (k & Hk & ->).
    assert (k < length recs)%nat as Hk'.
    { destruct (decide (k < length recs)%nat) as [|Hge]; [assumption|].
      exfalso. rewrite take_ge in Hlt by lia.
      unfold stream in Hlt. rewrite length_app in Hlt.
      simpl length in Hlt. lia. }
    destruct (lookup_lt_is_Some_2 recs k Hk') as [r Hrk].
    assert (well_formed r = true) as Hr'.
    { exact (forallb_lookup well_formed recs k r Hwf Hrk). }
    pose proof (stream_split recs c1 c2 k r Hrk) as E.
    rewrite E in Hh. rewrite length_field_at in Hh by exact Hr'.
    assert (len = rec_length r) as -> by congruence.
    exists (S k). split; [lia|].
    rewrite (take_S_r recs k r Hrk), map_app, concat_app, length_app.
    cbn [map concat]. rewrite app_nil_r.
    pose proof (bytes_of_length r). lia.
Qed.

(** Streams of well-formed records have positive lengths where the loop
    comes. *)
Lemma stream_lengths_positive (recs : list rec) (c1 c2 : Z) :
  forallb well_formed recs = true ->
  lengths_positive_on_path (stream recs c1 c2).
Proof.
  intros Hwf pos len Hr Hlt Hm Hh.
  destruct (reached_stream recs c1 c2 pos Hwf Hr) as (k & Hk & ->).
  assert (k < length recs)%nat as Hk'.
  { destruct (decide (k < length recs)%nat) as [|Hge]; [assumption|].
    exfalso. rewrite take_ge in Hlt by lia.
    unfold stream in Hlt. rewrite length_app in Hlt.
    simpl length in Hlt. lia. }
  destruct (lookup_lt_is_Some_2 recs k Hk') as [r Hrk].
  assert (well_formed r = true) as Hr'.
  { exact (forallb_lookup well_formed recs k r Hwf Hrk). }
  pose proof (stream_split recs c1 c2 k r Hrk) as E.
  rewrite E in Hh. rewrite length_field_at in Hh by exact Hr'.
  assert (len = rec_length r) as -> by congruence.
  unfold rec_length. lia.
Qed.

(** When the length field of every record the loop of [update] comes to is
    positive, the loop makes at most [len(data)] turns: the call returns or
    raises.  The condition is on the records met from position 0 on, one
    after the other, not on the bytes between them; the streams of
    well-formed records meet it. *)
Theorem update_ends_within_length (data : list Z) (s : state) :
  lengths_positive_on_path data ->
  (update (length data) data s).1 = Returned tt
  \/ exists e, (update (length data) data s).1 = Raised e.
Proof.
  intros Hpos. unfold update.
  pose proof (scan_ends_on_path data Hpos (length data) 0 (enter data s)
                (reached_start data)) as H.
  destruct (scan (length data) data 0 (enter data s)) as [[pos|e|] s1];
    simpl in *.
  - destruct (negb _); simpl; [right; eexists; reflexivity | left; reflexivity].
  - right. exists e. reflexivity.
  - exfalso. apply H; [lia | lia | reflexivity].
Qed.

Lemma update_ends_within_length_witness :
  (update 49
     (stream [Rec 7 90 0 1 2 3 [1; 2; 3] 8 9;
              Rec 29 165 0 0 0 0 (replicate 20 1) 8 9] 4 5)
     (State (fresh 0) world0)).1 = Returned tt
  \/ exists e,
       (update 49
          (stream [Rec 7 90 0 1 2 3 [1; 2; 3] 8 9;
                   Rec 29 165 0 0 0 0 (replicate 20 1) 8 9] 4 5)
          (State (fresh 0) world0)).1 = Raised e.
Proof.
  apply (update_ends_within_length
           (stream [Rec 7 90 0 1 2 3 [1; 2; 3] 8 9;
                    Rec 29 165 0 0 0 0 (replicate 20 1) 8 9] 4 5)
           (State (fresh 0) world0)).
  apply stream_lengths_positive. vm_compute. reflexivity.
Defined.

End StreamsMore.
